(** * bcdi.experiment.detector: the detector classes and their
    correction pipeline, embedded from [src/bcdi/experiment/detector.py].

    Arrays are numpy arrays: a dtype tag, a shape and a row-major
    buffer.  Pixel arithmetic is taken through the interface [Scalar], so
    that integer and floating-point frames are covered by the same
    statements; the instance on [Z] is the one used for concrete frames.
    Exceptions are values of [exn] carried by the [result] monad. *)

From Stdlib Require Import ZArith Bool Lia ZifyBool.
From stdpp Require Import base option list strings.

Local Open Scope Z_scope.

(** ** Exceptions *)

Inductive exn : Type :=
| TypeError (msg : string)
| ValueError (msg : string)
| IndexError (msg : string)
| NotImplementedError (msg : string)
| ZeroDivisionError (msg : string)
| ValidationError (field : string).

Inductive result (A : Type) : Type :=
| Ok (a : A)
| Raise (e : exn).
Arguments Ok {A} a.
Arguments Raise {A} e.

#[global] Instance result_ret : MRet result := fun A a => Ok a.
#[global] Instance result_bind : MBind result := fun A B f m =>
  match m with
  | Ok a => f a
  | Raise e => Raise e
  end.

Definition raises {A} (m : result A) : bool :=
  match m with Ok _ => false | Raise _ => true end.

Definition is_ValueError {A} (m : result A) : bool :=
  match m with Raise (ValueError _) => true | _ => false end.

(** ** Array elements *)

Class Scalar (V : Type) : Type := {
  of_Z : Z -> V;           (* a Python integer literal stored in the array *)
  s_eqb : V -> V -> bool;  (* elementwise [==] *)
  s_gtb : V -> V -> bool;  (* elementwise [>] *)
  s_mul : V -> V -> V;     (* elementwise [*] *)
  s_sub : V -> V -> V;     (* elementwise [-] *)
  s_float : V -> V         (* conversion done by [astype(float)] *)
}.

#[global] Instance Z_Scalar : Scalar Z := {
  of_Z := fun z => z;
  s_eqb := Z.eqb;
  s_gtb := Z.gtb;
  s_mul := Z.mul;
  s_sub := Z.sub;
  s_float := fun z => z
}.

Inductive dtype_t : Type := int64 | float64.

Definition result_type (a b : dtype_t) : dtype_t :=
  match a, b with
  | int64, int64 => int64
  | _, _ => float64
  end.

(** ** Slices and integer indices *)

Inductive index : Type :=
| Int (k : Z)
| Slice (start stop : option Z).

(** [a:b], [:], [:b], [a:] *)
Definition rng (a b : Z) : index := Slice (Some a) (Some b).
Definition all : index := Slice None None.
Definition upto (b : Z) : index := Slice None (Some b).
Definition from (a : Z) : index := Slice (Some a) None.

(** A slice bound is clamped to the axis, a negative one counts from the
    end. *)
Definition adjust (len k : Z) : Z :=
  if k <? 0 then Z.max (k + len) 0 else Z.min k len.

(** A bound as written, a negative one counting from the end, before any
    clamping. *)
Definition literal (len k : Z) : Z := if k <? 0 then k + len else k.

Definition selects (ix : index) (len k : Z) : bool :=
  match ix with
  | Int j => k =? (if j <? 0 then j + len else j)
  | Slice a b =>
      (from_option (adjust len) 0 a <=? k) && (k <? from_option (adjust len) len b)
  end.

(** An integer index outside the axis is an IndexError, a slice never is. *)
Definition in_bounds (ix : index) (len : Z) : bool :=
  match ix with
  | Int j => (- len <=? j) && (j <? len)
  | Slice _ _ => true
  end.

Section Arrays.
Context {V : Type} `{Scalar V}.

Definition zero : V := of_Z 0.
Definition one : V := of_Z 1.

Record ndarray : Type := mk_ndarray {
  dtype : dtype_t;
  shape : list nat;
  buf : list V
}.

Definition ndim (a : ndarray) : nat := length (shape a).
Definition size (a : ndarray) : nat := length (buf a).

(** Every array numpy builds holds as many elements as its shape says. *)
Definition wf (a : ndarray) : Prop :=
  length (buf a) = foldr Nat.mul 1%nat (shape a).

Definition with_buf (a : ndarray) (b : list V) : ndarray :=
  {| dtype := dtype a; shape := shape a; buf := b |}.

(** [a[y, x]] of a 2D array *)
Definition get2 (a : ndarray) (y x : nat) : option V :=
  match shape a with
  | [nby; nbx] =>
      if decide (y < nby /\ x < nbx)%nat then buf a !! (y * nbx + x)%nat else None
  | _ => None
  end.

(** [np.full(shape, c)] for a 2D shape *)
Definition full (dt : dtype_t) (nby nbx : nat) (c : V) : ndarray :=
  {| dtype := dt; shape := [nby; nbx]; buf := replicate (nby * nbx) c |}.

(** The pixel at flat position [i] of a frame with [nbx] columns is
    selected by the index pair. *)
Definition hits (iy ix : index) (nby nbx : nat) (i : nat) : bool :=
  selects iy (Z.of_nat nby) (Z.of_nat i / Z.of_nat nbx)
  && selects ix (Z.of_nat nbx) (Z.of_nat i mod Z.of_nat nbx).

(** [a[iy, ix] = c] on a 2D array (the callers check [ndim] first). *)
Definition setitem2 (a : ndarray) (iy ix : index) (c : V) : result ndarray :=
  match shape a with
  | [nby; nbx] =>
      if in_bounds iy (Z.of_nat nby) && in_bounds ix (Z.of_nat nbx)
      then Ok (with_buf a (imap (fun i v => if hits iy ix nby nbx i then c else v) (buf a)))
      else Raise (IndexError "index is out of bounds")
  | _ => Raise (IndexError "too many indices for array")
  end.

(** [a[b] = c] with a boolean array [b] of as many dimensions as [a]:
    the shapes must agree. *)
Definition setitem_bool (a : ndarray) (bshape : list nat) (b : list bool) (c : V)
  : result ndarray :=
  if decide (bshape = shape a)
  then Ok (with_buf a (imap (fun i v => if default false (b !! i) then c else v) (buf a)))
  else Raise (IndexError "boolean index did not match indexed array").

(** [a.astype(float)], [a.flatten()], [a.reshape((nby, nbx))] *)
Definition astype_float (a : ndarray) : ndarray :=
  {| dtype := float64; shape := shape a; buf := s_float <$> buf a |}.

Definition flatten (a : ndarray) : ndarray :=
  {| dtype := dtype a; shape := [size a]; buf := buf a |}.

Definition reshape2 (a : ndarray) (nby nbx : nat) : result ndarray :=
  if decide (size a = nby * nbx)%nat
  then Ok {| dtype := dtype a; shape := [nby; nbx]; buf := buf a |}
  else Raise (ValueError "cannot reshape array").

(** A sequence of assignments of one constant, in source order. *)
Fixpoint setitems (a : ndarray) (tbl : list (index * index)) (c : V) : result ndarray :=
  match tbl with
  | [] => Ok a
  | (iy, ix) :: tbl => a ← setitem2 a iy ix c; setitems a tbl c
  end.

Definition covers (tbl : list (index * index)) (nby nbx i : nat) : bool :=
  existsb (fun '(iy, ix) => hits iy ix nby nbx i) tbl.

Definition tbl_in_bounds (tbl : list (index * index)) (nby nbx : nat) : bool :=
  forallb (fun '(iy, ix) => in_bounds iy (Z.of_nat nby) && in_bounds ix (Z.of_nat nbx)) tbl.

(** [(a == c)], [(a > bound)] and [b.sum()] for a boolean array *)
Definition eq_scalar (a : ndarray) (c : Z) : list bool :=
  (fun v => s_eqb v (of_Z c)) <$> buf a.

Definition gt_scalar (a : ndarray) (bound : V) : list bool :=
  (fun v => s_gtb v bound) <$> buf a.

Fixpoint bool_sum (b : list bool) : nat :=
  match b with
  | [] => 0
  | x :: b => ((if x then 1 else 0) + bool_sum b)%nat
  end.

(** [m'] is [m] with some elements overwritten by 1. *)
Definition only_sets_one (m m' : ndarray) : Prop :=
  shape m' = shape m
  /\ forall i v, buf m !! i = Some v -> buf m' !! i = Some v \/ buf m' !! i = Some one.

(** [a'] is [a] with the elements at some positions overwritten by [c]. *)
Definition overwrites (c : V) (a a' : ndarray) : Prop :=
  shape a' = shape a
  /\ exists sel : nat -> bool,
       buf a' = imap (fun i v => if sel i then c else v) (buf a).

(** No array element compares equal to both 0 and 1. *)
Definition zero_one_apart : Prop :=
  forall v : V, s_eqb v zero = true -> s_eqb v one = true -> False.

(** [np.multiply(a, b)] and [a - b] for arrays of one shape *)
Definition multiply (a b : ndarray) : ndarray :=
  {| dtype := result_type (dtype a) (dtype b); shape := shape a;
     buf := zip_with s_mul (buf a) (buf b) |}.

Definition subtract (a b : ndarray) : ndarray :=
  {| dtype := result_type (dtype a) (dtype b); shape := shape a;
     buf := zip_with s_sub (buf a) (buf b) |}.

End Arrays.
Arguments ndarray V : clear implicits.

(** ** Argument validation *)

(** A Python argument expected to be an integer. *)
Inductive pynum : Type :=
| PyInt (n : Z)
| PyNotInt.

(** Modelled from the spec: [bcdi.utils.validation.valid_container] is
    imported by the module and is not among the sources.  For a sequence of
    integers it checks the declared length and the strict lower bound of the
    items; [None] passes only where it is allowed; a violation raises a
    validation error naming the field. *)
Definition valid_container_int (obj : option (list Z)) (len : nat)
    (min_excluded : option Z) (allow_none : bool) (name : string) : result unit :=
  match obj with
  | None => if allow_none then Ok () else Raise (ValidationError name)
  | Some l =>
      if bool_decide (length l = len)
         && forallb (fun z => from_option (fun m => m <? z) true min_excluded) l
      then Ok ()
      else Raise (ValidationError name)
  end.

(** Modelled from the spec: [valid_container] on a string field, which is
    [None] or holds at least [min_length] characters. *)
Definition valid_container_str (obj : option string) (min_length : nat)
    (name : string) : result unit :=
  match obj with
  | None => Ok ()
  | Some s =>
      if decide (min_length <= String.length s)%nat then Ok ()
      else Raise (ValidationError name)
  end.

(** Modelled from the spec: [bcdi.utils.validation.valid_item] with
    [allowed_types=int] and a strict lower bound; the validated integer is
    handed back. *)
Definition valid_item_int (value : pynum) (min_excluded : Z) (name : string)
  : result Z :=
  match value with
  | PyInt n => if min_excluded <? n then Ok n else Raise (ValidationError name)
  | PyNotInt => Raise (ValidationError name)
  end.

(** [seq[i]] and [a // b] *)
Definition getitem (l : list Z) (i : nat) : result Z :=
  match l !! i with
  | Some z => Ok z
  | None => Raise (IndexError "tuple index out of range")
  end.

Definition floordiv (a b : Z) : result Z :=
  if b =? 0 then Raise (ZeroDivisionError "integer division or modulo by zero")
  else Ok (a / b).

(** ** The detector object *)

Inductive model : Type := Maxipix | Eiger2M | Eiger4M | Timepix | Merlin | Dummy.

Section Detectors.
Context {V : Type} `{Scalar V}.

(** The attributes of a [Detector] instance; [class_] is the class the
    methods are dispatched on. *)
Record Detector : Type := mk_Detector {
  class_ : model;
  _name : string;
  _preprocessing_binning : list Z;
  offsets : option (list V);
  _linearity_func : option (ndarray V -> ndarray V);
  _binning : list Z;
  _roi : list Z;
  _sum_roi : list Z;
  _rootdir : option string;
  _datadir : option string;
  _savedir : option string;
  _sample_name : option string;
  _template_file : option string;
  _template_imagefile : option string;
  _specfile : option string;
  _counter_table : list (string * string);
  saturation_threshold : option V;
  custom_pixelsize : option V;
  custom_pixelnumber : option (list Z)
}.

(** Attribute assignment [self.attr = v] *)
Definition with_preprocessing_binning (self : Detector) (v : list Z) : Detector :=
  mk_Detector (class_ self) (_name self) v (offsets self)
    (_linearity_func self) (_binning self) (_roi self) (_sum_roi self)
    (_rootdir self) (_datadir self) (_savedir self) (_sample_name self)
    (_template_file self) (_template_imagefile self) (_specfile self)
    (_counter_table self) (saturation_threshold self)
    (custom_pixelsize self) (custom_pixelnumber self).

Definition with_offsets (self : Detector) (v : option (list V)) : Detector :=
  mk_Detector (class_ self) (_name self) (_preprocessing_binning self) v
    (_linearity_func self) (_binning self) (_roi self) (_sum_roi self)
    (_rootdir self) (_datadir self) (_savedir self) (_sample_name self)
    (_template_file self) (_template_imagefile self) (_specfile self)
    (_counter_table self) (saturation_threshold self)
    (custom_pixelsize self) (custom_pixelnumber self).

Definition with_linearity_func (self : Detector) (v : option (ndarray V -> ndarray V)) : Detector :=
  mk_Detector (class_ self) (_name self) (_preprocessing_binning self)
    (offsets self) v (_binning self) (_roi self) (_sum_roi self)
    (_rootdir self) (_datadir self) (_savedir self) (_sample_name self)
    (_template_file self) (_template_imagefile self) (_specfile self)
    (_counter_table self) (saturation_threshold self)
    (custom_pixelsize self) (custom_pixelnumber self).

Definition with_binning (self : Detector) (v : list Z) : Detector :=
  mk_Detector (class_ self) (_name self) (_preprocessing_binning self)
    (offsets self) (_linearity_func self) v (_roi self) (_sum_roi self)
    (_rootdir self) (_datadir self) (_savedir self) (_sample_name self)
    (_template_file self) (_template_imagefile self) (_specfile self)
    (_counter_table self) (saturation_threshold self)
    (custom_pixelsize self) (custom_pixelnumber self).

Definition with_roi (self : Detector) (v : list Z) : Detector :=
  mk_Detector (class_ self) (_name self) (_preprocessing_binning self)
    (offsets self) (_linearity_func self) (_binning self) v (_sum_roi self)
    (_rootdir self) (_datadir self) (_savedir self) (_sample_name self)
    (_template_file self) (_template_imagefile self) (_specfile self)
    (_counter_table self) (saturation_threshold self)
    (custom_pixelsize self) (custom_pixelnumber self).

Definition with_sum_roi (self : Detector) (v : list Z) : Detector :=
  mk_Detector (class_ self) (_name self) (_preprocessing_binning self)
    (offsets self) (_linearity_func self) (_binning self) (_roi self) v
    (_rootdir self) (_datadir self) (_savedir self) (_sample_name self)
    (_template_file self) (_template_imagefile self) (_specfile self)
    (_counter_table self) (saturation_threshold self)
    (custom_pixelsize self) (custom_pixelnumber self).

Definition with_rootdir (self : Detector) (v : option string) : Detector :=
  mk_Detector (class_ self) (_name self) (_preprocessing_binning self)
    (offsets self) (_linearity_func self) (_binning self) (_roi self)
    (_sum_roi self) v (_datadir self) (_savedir self) (_sample_name self)
    (_template_file self) (_template_imagefile self) (_specfile self)
    (_counter_table self) (saturation_threshold self)
    (custom_pixelsize self) (custom_pixelnumber self).

Definition with_datadir (self : Detector) (v : option string) : Detector :=
  mk_Detector (class_ self) (_name self) (_preprocessing_binning self)
    (offsets self) (_linearity_func self) (_binning self) (_roi self)
    (_sum_roi self) (_rootdir self) v (_savedir self) (_sample_name self)
    (_template_file self) (_template_imagefile self) (_specfile self)
    (_counter_table self) (saturation_threshold self)
    (custom_pixelsize self) (custom_pixelnumber self).

Definition with_savedir (self : Detector) (v : option string) : Detector :=
  mk_Detector (class_ self) (_name self) (_preprocessing_binning self)
    (offsets self) (_linearity_func self) (_binning self) (_roi self)
    (_sum_roi self) (_rootdir self) (_datadir self) v (_sample_name self)
    (_template_file self) (_template_imagefile self) (_specfile self)
    (_counter_table self) (saturation_threshold self)
    (custom_pixelsize self) (custom_pixelnumber self).

Definition with_sample_name (self : Detector) (v : option string) : Detector :=
  mk_Detector (class_ self) (_name self) (_preprocessing_binning self)
    (offsets self) (_linearity_func self) (_binning self) (_roi self)
    (_sum_roi self) (_rootdir self) (_datadir self) (_savedir self) v
    (_template_file self) (_template_imagefile self) (_specfile self)
    (_counter_table self) (saturation_threshold self)
    (custom_pixelsize self) (custom_pixelnumber self).

Definition with_template_file (self : Detector) (v : option string) : Detector :=
  mk_Detector (class_ self) (_name self) (_preprocessing_binning self)
    (offsets self) (_linearity_func self) (_binning self) (_roi self)
    (_sum_roi self) (_rootdir self) (_datadir self) (_savedir self)
    (_sample_name self) v (_template_imagefile self) (_specfile self)
    (_counter_table self) (saturation_threshold self)
    (custom_pixelsize self) (custom_pixelnumber self).

Definition with_template_imagefile (self : Detector) (v : option string) : Detector :=
  mk_Detector (class_ self) (_name self) (_preprocessing_binning self)
    (offsets self) (_linearity_func self) (_binning self) (_roi self)
    (_sum_roi self) (_rootdir self) (_datadir self) (_savedir self)
    (_sample_name self) (_template_file self) v (_specfile self)
    (_counter_table self) (saturation_threshold self)
    (custom_pixelsize self) (custom_pixelnumber self).

Definition with_specfile (self : Detector) (v : option string) : Detector :=
  mk_Detector (class_ self) (_name self) (_preprocessing_binning self)
    (offsets self) (_linearity_func self) (_binning self) (_roi self)
    (_sum_roi self) (_rootdir self) (_datadir self) (_savedir self)
    (_sample_name self) (_template_file self) (_template_imagefile self) v
    (_counter_table self) (saturation_threshold self)
    (custom_pixelsize self) (custom_pixelnumber self).

Definition with_counter_table (self : Detector) (v : list (string * string)) : Detector :=
  mk_Detector (class_ self) (_name self) (_preprocessing_binning self)
    (offsets self) (_linearity_func self) (_binning self) (_roi self)
    (_sum_roi self) (_rootdir self) (_datadir self) (_savedir self)
    (_sample_name self) (_template_file self) (_template_imagefile self)
    (_specfile self) v (saturation_threshold self) (custom_pixelsize self)
    (custom_pixelnumber self).

Definition with_saturation_threshold (self : Detector) (v : option V) : Detector :=
  mk_Detector (class_ self) (_name self) (_preprocessing_binning self)
    (offsets self) (_linearity_func self) (_binning self) (_roi self)
    (_sum_roi self) (_rootdir self) (_datadir self) (_savedir self)
    (_sample_name self) (_template_file self) (_template_imagefile self)
    (_specfile self) (_counter_table self) v (custom_pixelsize self)
    (custom_pixelnumber self).

Definition with_custom_pixelsize (self : Detector) (v : option V) : Detector :=
  mk_Detector (class_ self) (_name self) (_preprocessing_binning self)
    (offsets self) (_linearity_func self) (_binning self) (_roi self)
    (_sum_roi self) (_rootdir self) (_datadir self) (_savedir self)
    (_sample_name self) (_template_file self) (_template_imagefile self)
    (_specfile self) (_counter_table self) (saturation_threshold self) v
    (custom_pixelnumber self).

Definition with_custom_pixelnumber (self : Detector) (v : option (list Z)) : Detector :=
  mk_Detector (class_ self) (_name self) (_preprocessing_binning self)
    (offsets self) (_linearity_func self) (_binning self) (_roi self)
    (_sum_roi self) (_rootdir self) (_datadir self) (_savedir self)
    (_sample_name self) (_template_file self) (_template_imagefile self)
    (_specfile self) (_counter_table self) (saturation_threshold self)
    (custom_pixelsize self) v.

(** Modelled from the spec: [valid_item] with [allowed_types=Real],
    [min_excluded=0] and [allow_none=True]. *)
Definition valid_item_real (value : option V) (name : string) : result unit :=
  match value with
  | None => Ok ()
  | Some s => if s_gtb s zero then Ok () else Raise (ValidationError name)
  end.

(** The object before [__init__] has assigned anything.  [__init__] assigns
    every attribute before reading it, so the initial contents below are
    never observed. *)
Definition new_object (c : model) (name : string) : Detector :=
  mk_Detector c name [] None None [] [] [] None None None None None None None
    [] None None None.

(** *** Properties *)

Definition unbinned_pixel_number (self : Detector) : list Z :=
  match class_ self with
  | Maxipix => [516; 516]
  | Eiger2M => [2164; 1030]
  | Eiger4M => [2167; 2070]
  | Timepix => [256; 256]
  | Merlin => [515; 515]
  | Dummy =>
      match custom_pixelnumber self with
      | Some l => l
      | None => [516; 516]
      end
  end.

Definition nb_pixel_x (self : Detector) : result Z :=
  n ← getitem (unbinned_pixel_number self) 1;
  b ← getitem (_preprocessing_binning self) 2;
  floordiv n b.

Definition nb_pixel_y (self : Detector) : result Z :=
  n ← getitem (unbinned_pixel_number self) 0;
  b ← getitem (_preprocessing_binning self) 1;
  floordiv n b.

Definition roi (self : Detector) : list Z := _roi self.
Definition sum_roi (self : Detector) : list Z := _sum_roi self.

Definition binning_setter (self : Detector) (value : list Z) : result Detector :=
  _ ← valid_container_int (Some value) 3 (Some 0) false "Detector.binning";
  Ok (with_binning self value).

Definition preprocessing_binning_setter (self : Detector) (value : list Z)
  : result Detector :=
  _ ← valid_container_int (Some value) 3 (Some 0) false
        "Detector.preprocessing_binning";
  Ok (with_preprocessing_binning self value).

(** [if not value]: [None] or an empty list/tuple *)
Definition roi_setter (self : Detector) (value : option (list Z)) : result Detector :=
  value ← match value with
          | None | Some [] =>
              ny ← nb_pixel_y self; nx ← nb_pixel_x self; Ok [0; ny; 0; nx]
          | Some value => Ok value
          end;
  _ ← valid_container_int (Some value) 4 None false "Detector.roi";
  Ok (with_roi self value).

Definition sum_roi_setter (self : Detector) (value : option (list Z))
  : result Detector :=
  value ← match value with
          | None | Some [] =>
              match roi self with
              | [] => ny ← nb_pixel_y self; nx ← nb_pixel_x self; Ok [0; ny; 0; nx]
              | r => Ok r
              end
          | Some value => Ok value
          end;
  _ ← valid_container_int (Some value) 4 None false "Detector.sum_roi";
  Ok (with_sum_roi self value).

Definition rootdir_setter (self : Detector) (value : option string) : result Detector :=
  _ ← valid_container_str value 1 "Detector.rootdir"; Ok (with_rootdir self value).

Definition datadir_setter (self : Detector) (value : option string) : result Detector :=
  _ ← valid_container_str value 1 "Detector.datadir"; Ok (with_datadir self value).

Definition savedir_setter (self : Detector) (value : option string) : result Detector :=
  _ ← valid_container_str value 1 "Detector.savedir"; Ok (with_savedir self value).

Definition sample_name_setter (self : Detector) (value : option string)
  : result Detector :=
  _ ← valid_container_str value 1 "Detector.sample_name";
  Ok (with_sample_name self value).

Definition template_file_setter (self : Detector) (value : option string)
  : result Detector :=
  _ ← valid_container_str value 0 "Detector.template_file";
  Ok (with_template_file self value).

Definition template_imagefile_setter (self : Detector) (value : option string)
  : result Detector :=
  _ ← valid_container_str value 0 "Detector.imagefile";
  Ok (with_template_imagefile self value).

(** [specfile] has no property in the class: a plain attribute. *)
Definition specfile_setter (self : Detector) (value : option string) : result Detector :=
  Ok (with_specfile self value).

(** What the binning setter and the classes guarantee of a constructed
    detector: three positive preprocessing-binning factors and a pair of
    pixel numbers. *)
Definition config_ok (self : Detector) : Prop :=
  length (_preprocessing_binning self) = 3%nat
  /\ (forall b, b ∈ _preprocessing_binning self -> 0 < b)
  /\ length (unbinned_pixel_number self) = 2%nat.

(** *** Construction *)

(** The keyword arguments of the constructors, with the defaults of
    [Detector.__init__]. *)
Record kwargs : Type := mk_kwargs {
  kw_rootdir : option string;
  kw_datadir : option string;
  kw_savedir : option string;
  kw_template_file : option string;
  kw_template_imagefile : option string;
  kw_specfile : option string;
  kw_sample_name : option string;
  kw_roi : option (list Z);
  kw_sum_roi : option (list Z);
  kw_binning : list Z;
  kw_preprocessing_binning : option (list Z);
  kw_offsets : option (list V);
  kw_linearity_func : option (ndarray V -> ndarray V);
  kw_custom_pixelsize : option V;
  kw_custom_pixelnumber : option (list Z)
}.

Definition default_kwargs : kwargs :=
  mk_kwargs None None None None None None None None None [1; 1; 1]
    None None None None None.

Definition Detector_init (self : Detector) (kw : kwargs) : result Detector :=
  (* kwargs.get("preprocessing_binning") or (1, 1, 1) *)
  self ← preprocessing_binning_setter self
           match kw_preprocessing_binning kw with
           | None | Some [] => [1; 1; 1]
           | Some b => b
           end;
  let self := with_offsets self (kw_offsets kw) in
  let self := with_linearity_func self (kw_linearity_func kw) in
  self ← binning_setter self (kw_binning kw);
  self ← roi_setter self (kw_roi kw);
  self ← sum_roi_setter self (kw_sum_roi kw);
  self ← rootdir_setter self (kw_rootdir kw);
  self ← datadir_setter self (kw_datadir kw);
  self ← savedir_setter self (kw_savedir kw);
  self ← sample_name_setter self (kw_sample_name kw);
  self ← template_file_setter self (kw_template_file kw);
  self ← template_imagefile_setter self (kw_template_imagefile kw);
  self ← specfile_setter self (kw_specfile kw);
  let self := with_counter_table self [] in
  Ok (with_saturation_threshold self None).

Definition Maxipix_init (name : string) (kw : kwargs) : result Detector :=
  self ← Detector_init (new_object Maxipix name) kw;
  let self := with_counter_table self [("ID01", "mpx4inr")] in
  Ok (with_saturation_threshold self (Some (of_Z 1000000))).

Definition Eiger2M_init (name : string) (kw : kwargs) : result Detector :=
  self ← Detector_init (new_object Eiger2M name) kw;
  let self := with_counter_table self [("ID01", "ei2minr")] in
  Ok (with_saturation_threshold self (Some (of_Z 1000000))).

Definition Eiger4M_init (name : string) (kw : kwargs) : result Detector :=
  self ← Detector_init (new_object Eiger4M name) kw;
  Ok (with_saturation_threshold self (Some (of_Z 4000000000))).

Definition Timepix_init (name : string) (kw : kwargs) : result Detector :=
  Detector_init (new_object Timepix name) kw.

Definition Merlin_init (name : string) (kw : kwargs) : result Detector :=
  self ← Detector_init (new_object Merlin name) kw;
  Ok (with_saturation_threshold self (Some (of_Z 1000000))).

Definition Dummy_init (name : string) (kw : kwargs) : result Detector :=
  let self := new_object Dummy name in
  let self := with_custom_pixelsize self (kw_custom_pixelsize kw) in
  _ ← valid_item_real (custom_pixelsize self) "custom_pixelsize";
  let self := with_custom_pixelnumber self (kw_custom_pixelnumber kw) in
  _ ← valid_container_int (custom_pixelnumber self) 2 (Some 0) true
        "custom_pixelnumber";
  Detector_init self kw.

Definition create_detector (name : string) (kw : kwargs) : result Detector :=
  if decide (name = "Maxipix") then Maxipix_init name kw
  else if decide (name = "Eiger2M") then Eiger2M_init name kw
  else if decide (name = "Eiger4M") then Eiger4M_init name kw
  else if decide (name = "Timepix") then Timepix_init name kw
  else if decide (name = "Merlin") then Merlin_init name kw
  else if decide (name = "Dummy") then Dummy_init name kw
  else Raise (NotImplementedError
                ("No implementation for the " +:+ name +:+ " detector")).

(** *** The correction steps *)

(** The argument checks shared by the steps working on [data] and [mask];
    the [isinstance] tests hold by typing. *)
Definition check_data_mask (data mask : ndarray V) : result unit :=
  if decide (ndim data ≠ 2%nat) then Raise (ValueError "data should be a 2D array")
  else if decide (ndim mask ≠ ndim data)
  then Raise (ValueError "mask and data must have the same shape")
  else Ok ().

Definition _background_subtraction (data : ndarray V) (background : option (ndarray V))
  : result (ndarray V) :=
  if decide (ndim data ≠ 2%nat) then Raise (ValueError "data should be a 2D array")
  else match background with
       | Some background =>
           if decide (shape background ≠ shape data)
           then Raise (ValueError "background and data must have the same shape")
           else Ok (subtract data background)
       | None => Ok data
       end.

Definition _flatfield_correction (data : ndarray V) (flatfield : option (ndarray V))
  : result (ndarray V) :=
  if decide (ndim data ≠ 2%nat) then Raise (ValueError "data should be a 2D array")
  else match flatfield with
       | Some flatfield =>
           if decide (shape flatfield ≠ shape data)
           then Raise (ValueError "flatfield and data must have the same shape")
           else Ok (multiply flatfield data)
       | None => Ok data
       end.

Definition _hotpixels_correction (data mask : ndarray V) (hotpixels : option (ndarray V))
  : result (ndarray V * ndarray V) :=
  _ ← check_data_mask data mask;
  match hotpixels with
  | Some hotpixels =>
      if decide (shape hotpixels ≠ shape data)
      then Raise (ValueError "hotpixels and data must have the same shape")
      else if decide ((bool_sum (eq_scalar hotpixels 0)
                       + bool_sum (eq_scalar hotpixels 1))%nat ≠ size hotpixels)
      then Raise (ValueError "hotpixels should be an array of 0 and 1")
      else
        data ← setitem_bool data (shape hotpixels) (eq_scalar hotpixels 1) zero;
        mask ← setitem_bool mask (shape hotpixels) (eq_scalar hotpixels 1) one;
        Ok (data, mask)
  | None => Ok (data, mask)
  end.

Definition _linearity_correction (self : Detector) (data : ndarray V)
  : result (ndarray V) :=
  if decide (ndim data ≠ 2%nat) then Raise (ValueError "data should be a 2D array")
  else
    let data := astype_float data in
    match _linearity_func self, shape data with
    | Some f, [nby; nbx] => reshape2 (f (flatten data)) nby nbx
    | _, _ => Ok data
    end.

(** *** Gap masking, per class *)

Definition Detector_mask_gaps (data mask : ndarray V)
  : result (ndarray V * ndarray V) :=
  _ ← check_data_mask data mask;
  Ok (data, mask).

Definition Maxipix_mask_gaps (data mask : ndarray V)
  : result (ndarray V * ndarray V) :=
  _ ← check_data_mask data mask;
  data ← setitem2 data all (rng 255 261) zero;
  data ← setitem2 data (rng 255 261) all zero;

  mask ← setitem2 mask all (rng 255 261) one;
  mask ← setitem2 mask (rng 255 261) all one;
  Ok (data, mask).

Definition Eiger2M_mask_gaps (data mask : ndarray V)
  : result (ndarray V * ndarray V) :=
  _ ← check_data_mask data mask;
  data ← setitem2 data all (rng 255 259) zero;
  data ← setitem2 data all (rng 513 517) zero;
  data ← setitem2 data all (rng 771 775) zero;
  data ← setitem2 data (rng 0 257) (rng 72 80) zero;
  data ← setitem2 data (rng 255 259) all zero;
  data ← setitem2 data (rng 511 552) (upto 0) zero;
  data ← setitem2 data (rng 804 809) all zero;
  data ← setitem2 data (rng 1061 1102) all zero;
  data ← setitem2 data (rng 1355 1359) all zero;
  data ← setitem2 data (rng 1611 1652) all zero;
  data ← setitem2 data (rng 1905 1909) all zero;
  data ← setitem2 data (rng 1248 1290) (Int 478) zero;
  data ← setitem2 data (rng 1214 1298) (Int 481) zero;
  data ← setitem2 data (rng 1649 1910) (rng 620 628) zero;

  mask ← setitem2 mask all (rng 255 259) one;
  mask ← setitem2 mask all (rng 513 517) one;
  mask ← setitem2 mask all (rng 771 775) one;
  mask ← setitem2 mask (rng 0 257) (rng 72 80) one;
  mask ← setitem2 mask (rng 255 259) all one;
  mask ← setitem2 mask (rng 511 552) all one;
  mask ← setitem2 mask (rng 804 809) all one;
  mask ← setitem2 mask (rng 1061 1102) all one;
  mask ← setitem2 mask (rng 1355 1359) all one;
  mask ← setitem2 mask (rng 1611 1652) all one;
  mask ← setitem2 mask (rng 1905 1909) all one;
  mask ← setitem2 mask (rng 1248 1290) (Int 478) one;
  mask ← setitem2 mask (rng 1214 1298) (Int 481) one;
  mask ← setitem2 mask (rng 1649 1910) (rng 620 628) one;
  Ok (data, mask).

Definition Eiger4M_mask_gaps (data mask : ndarray V)
  : result (ndarray V * ndarray V) :=
  _ ← check_data_mask data mask;
  data ← setitem2 data all (rng 0 1) zero;
  data ← setitem2 data all (from (-1)) zero;
  data ← setitem2 data (rng 0 1) all zero;
  data ← setitem2 data (from (-1)) all zero;
  data ← setitem2 data all (rng 1029 1041) zero;
  data ← setitem2 data (rng 513 552) all zero;
  data ← setitem2 data (rng 1064 1103) all zero;
  data ← setitem2 data (rng 1615 1654) all zero;

  mask ← setitem2 mask all (rng 0 1) one;
  mask ← setitem2 mask all (from (-1)) one;
  mask ← setitem2 mask (rng 0 1) all one;
  mask ← setitem2 mask (from (-1)) all one;
  mask ← setitem2 mask all (rng 1029 1041) one;
  mask ← setitem2 mask (rng 513 552) all one;
  mask ← setitem2 mask (rng 1064 1103) all one;
  mask ← setitem2 mask (rng 1615 1654) all one;
  Ok (data, mask).

Definition Merlin_mask_gaps (data mask : ndarray V)
  : result (ndarray V * ndarray V) :=
  _ ← check_data_mask data mask;
  data ← setitem2 data all (rng 255 260) zero;
  data ← setitem2 data (rng 255 260) all zero;

  mask ← setitem2 mask all (rng 255 260) one;
  mask ← setitem2 mask (rng 255 260) all one;
  Ok (data, mask).

(** Method resolution: Timepix and Dummy inherit [Detector._mask_gaps]. *)
Definition _mask_gaps (c : model) (data mask : ndarray V)
  : result (ndarray V * ndarray V) :=
  match c with
  | Maxipix => Maxipix_mask_gaps data mask
  | Eiger2M => Eiger2M_mask_gaps data mask
  | Eiger4M => Eiger4M_mask_gaps data mask
  | Merlin => Merlin_mask_gaps data mask
  | Timepix | Dummy => Detector_mask_gaps data mask
  end.

(** *** Saturation and the pipeline *)

Definition _saturation_correction (self : Detector) (data mask : ndarray V)
    (nb_frames : pynum) : result (ndarray V * ndarray V) :=
  match saturation_threshold self with
  | Some threshold =>
      _ ← check_data_mask data mask;
      nb_frames ← valid_item_int nb_frames 0 "nb_frames";
      mask ← setitem_bool mask (shape data)
               (gt_scalar data (s_mul threshold (of_Z nb_frames))) one;
      data ← setitem_bool data (shape data)
               (gt_scalar data (s_mul threshold (of_Z nb_frames))) zero;
      Ok (data, mask)
  | None => Ok (data, mask)
  end.

(** The linearity step as [mask_detector] writes it: the configured function
    is called on [data] itself. *)
Definition linearity_step (self : Detector) (data : ndarray V) : ndarray V :=
  match _linearity_func self with
  | Some f => f data
  | None => data
  end.

Definition mask_detector (self : Detector) (data mask : ndarray V)
    (nb_frames : pynum) (flatfield background hotpixels : option (ndarray V))
  : result (ndarray V * ndarray V) :=
  if decide (ndim data ≠ 2%nat ∨ ndim mask ≠ 2%nat)
  then Raise (ValueError "data and mask should be 2D arrays")
  else if decide (shape data ≠ shape mask)
  then Raise (ValueError "data and mask must have the same shape")
  else
    (* linearity correction *)
    let data := linearity_step self data in
    (* flatfield correction *)
    data ← _flatfield_correction data flatfield;
    (* remove the background *)
    data ← _background_subtraction data background;
    (* mask hotpixels *)
    '(data, mask) ← _hotpixels_correction data mask hotpixels;
    (* mask detector gaps *)
    '(data, mask) ← _mask_gaps (class_ self) data mask;
    (* remove saturated pixels *)
    _saturation_correction self data mask nb_frames.

End Detectors.
Arguments Detector V : clear implicits.
Arguments kwargs V : clear implicits.

(** ** The gap tables

    The assignments of each [_mask_gaps], read off the definitions above in
    source order: one entry per statement.  [mask_gaps_table] below proves
    that running a class's method is running its two tables. *)

Definition data_gaps (c : model) : list (index * index) :=
  match c with
  | Maxipix => [(all, rng 255 261); (rng 255 261, all)]
  | Eiger2M =>
      [(all, rng 255 259); (all, rng 513 517); (all, rng 771 775);
       (rng 0 257, rng 72 80); (rng 255 259, all); (rng 511 552, upto 0);
       (rng 804 809, all); (rng 1061 1102, all); (rng 1355 1359, all);
       (rng 1611 1652, all); (rng 1905 1909, all); (rng 1248 1290, Int 478);
       (rng 1214 1298, Int 481); (rng 1649 1910, rng 620 628)]
  | Eiger4M =>
      [(all, rng 0 1); (all, from (-1)); (rng 0 1, all); (from (-1), all);
       (all, rng 1029 1041); (rng 513 552, all); (rng 1064 1103, all);
       (rng 1615 1654, all)]
  | Merlin => [(all, rng 255 260); (rng 255 260, all)]
  | Timepix | Dummy => []
  end.

Definition mask_gaps (c : model) : list (index * index) :=
  match c with
  | Eiger2M =>
      [(all, rng 255 259); (all, rng 513 517); (all, rng 771 775);
       (rng 0 257, rng 72 80); (rng 255 259, all); (rng 511 552, all);
       (rng 804 809, all); (rng 1061 1102, all); (rng 1355 1359, all);
       (rng 1611 1652, all); (rng 1905 1909, all); (rng 1248 1290, Int 478);
       (rng 1214 1298, Int 481); (rng 1649 1910, rng 620 628)]
  | c => data_gaps c
  end.

(** The pixel [(y, x)] of an [nby] by [nbx] frame is written by the table. *)
Definition covers_yx (tbl : list (index * index)) (nby nbx y x : nat) : bool :=
  existsb (fun '(iy, ix) =>
             selects iy (Z.of_nat nby) (Z.of_nat y)
             && selects ix (Z.of_nat nbx) (Z.of_nat x)) tbl.

(** ** Concrete frames and detectors (integer pixels) *)

(** A 2 by 2 integer frame, rows [1 2] and [3 4]. *)
Definition frame_2x2 : ndarray Z :=
  {| dtype := int64; shape := [2%nat; 2%nat]; buf := [1; 2; 3; 4] |}.

(** The same frame with one pixel above the Maxipix threshold. *)
Definition frame_saturated : ndarray Z :=
  {| dtype := int64; shape := [2%nat; 2%nat]; buf := [1; 2000000; 3; 4] |}.

(** A mask with pixel (1, 0) already excluded. *)
Definition mask_2x2 : ndarray Z :=
  {| dtype := int64; shape := [2%nat; 2%nat]; buf := [0; 0; 1; 0] |}.

(** Hot-pixel maps: a valid one marking pixel (0, 1), and one holding a 2. *)
Definition hotpixels_2x2 : ndarray Z :=
  {| dtype := int64; shape := [2%nat; 2%nat]; buf := [0; 1; 0; 0] |}.

Definition hotpixels_bad : ndarray Z :=
  {| dtype := int64; shape := [2%nat; 2%nat]; buf := [0; 2; 0; 0] |}.

(** [lambda a: np.full_like(a, a.ndim)]: a function that tells how many
    dimensions the array it receives has. *)
Definition ndim_probe (a : ndarray Z) : ndarray Z :=
  with_buf a ((fun _ => Z.of_nat (ndim a)) <$> buf a).

Definition kwargs_probe : kwargs Z :=
  mk_kwargs None None None None None None None None None [1; 1; 1]
    None None (Some ndim_probe) None None.

(** The detector [create_detector(name)] returns with default arguments. *)
Definition default_detector (name : string) : Detector Z :=
  match create_detector name default_kwargs with
  | Ok self => self
  | Raise _ => new_object Dummy name
  end.

(** ** Further methods and relations *)

(** [d.get(k)] on a dictionary kept as an association list. *)
Fixpoint dict_get (d : list (string * string)) (k : string) : option string :=
  match d with
  | [] => None
  | (k', v) :: d => if decide (k' = k) then Some v else dict_get d k
  end.

(** [Detector.counter]: the name of the image counter at a beamline.  The
    [isinstance(beamline, str)] test holds by typing. *)
Definition counter {V} `{Scalar V} (self : Detector V) (beamline : string)
  : option string :=
  dict_get (_counter_table self) beamline.

(** What each class's [__init__] assigns after [Detector.__init__]: the
    counter table and the saturation threshold; and the name the factory
    knows the class by. *)
Definition class_counter_table (c : model) : list (string * string) :=
  match c with
  | Maxipix => [("ID01", "mpx4inr")]
  | Eiger2M => [("ID01", "ei2minr")]
  | _ => []
  end.

Definition class_threshold {V} `{Scalar V} (c : model) : option V :=
  match c with
  | Maxipix | Eiger2M | Merlin => Some (of_Z 1000000)
  | Eiger4M => Some (of_Z 4000000000)
  | Timepix | Dummy => None
  end.

Definition class_name (c : model) : string :=
  match c with
  | Maxipix => "Maxipix"
  | Eiger2M => "Eiger2M"
  | Eiger4M => "Eiger4M"
  | Timepix => "Timepix"
  | Merlin => "Merlin"
  | Dummy => "Dummy"
  end.

(** [(d', m')] is [(d, m)] with one and the same set of positions written:
    0 into the data, 1 into the mask. *)
Definition paired_update {V} `{Scalar V} (d m d' m' : ndarray V) : Prop :=
  shape d' = shape d /\ shape m' = shape m
  /\ exists sel : nat -> bool,
       buf d' = imap (fun i v => if sel i then zero else v) (buf d)
       /\ buf m' = imap (fun i w => if sel i then one else w) (buf m).

(** A frame that saturates nowhere once zeroed: 0 is not above the bound. *)
Definition zero_below {V} `{Scalar V} (self : Detector V) (nb_frames : pynum) : Prop :=
  forall threshold n,
    saturation_threshold self = Some threshold -> nb_frames = PyInt n ->
    s_gtb zero (s_mul threshold (of_Z n)) = false.

(** A 2 by 2 flatfield and background. *)
Definition flatfield_2x2 : ndarray Z :=
  {| dtype := int64; shape := [2%nat; 2%nat]; buf := [2; 2; 1; 1] |}.

Definition background_2x2 : ndarray Z :=
  {| dtype := int64; shape := [2%nat; 2%nat]; buf := [1; 1; 1; 1] |}.

(** A 3 by 3 frame and mask. *)
Definition frame_3x3 : ndarray Z :=
  {| dtype := int64; shape := [3%nat; 3%nat]; buf := [1; 2; 3; 4; 5; 6; 7; 8; 9] |}.

Definition mask_3x3 : ndarray Z :=
  {| dtype := int64; shape := [3%nat; 3%nat]; buf := [0; 0; 0; 0; 0; 0; 0; 0; 0] |}.

(** Keyword arguments with a preprocessing binning of (1, 2, 4). *)
Definition kwargs_binned : kwargs Z :=
  mk_kwargs None None None None None None None None None [1; 1; 1]
    (Some [1; 2; 4]) None None None None.

(* ===================================================================== *)
(** * Properties *)
(* ===================================================================== *)

(** ** Lists and the result monad *)

Lemma imap_id {A} (l : list A) : imap (fun _ v => v) l = l.
Proof.
  apply list_eq; intros i. rewrite list_lookup_imap. by destruct (l !! i).
Qed.

Lemma imap_imap {A B C} (g : nat -> B -> C) (f : nat -> A -> B) (l : list A) :
  imap g (imap f l) = imap (fun i v => g i (f i v)) l.
Proof.
  apply list_eq; intros i. rewrite !list_lookup_imap. by destruct (l !! i).
Qed.

Lemma bind_Ok {A B} (a : A) (k : A -> result B) : (Ok a ≫= k) = k a.
Proof. reflexivity. Qed.

Lemma bind_Raise {A B} (e : exn) (k : A -> result B) : (Raise e ≫= k) = Raise e.
Proof. reflexivity. Qed.

Lemma bind_assoc {A B C} (m : result A) (f : A -> result B) (g : B -> result C) :
  ((m ≫= f) ≫= g) = (m ≫= fun a => f a ≫= g).
Proof. by destruct m. Qed.

Section ArrayFacts.
Context {V : Type} `{Scalar V}.
Implicit Types a data mask : ndarray V.

Lemma with_buf_id a : with_buf a (buf a) = a.
Proof. by destruct a. Qed.

Lemma with_buf_with_buf a b b' : with_buf (with_buf a b) b' = with_buf a b'.
Proof. reflexivity. Qed.

Lemma setitem2_2d a iy ix (c : V) nby nbx :
  shape a = [nby; nbx] ->
  setitem2 a iy ix c =
    if in_bounds iy (Z.of_nat nby) && in_bounds ix (Z.of_nat nbx)
    then Ok (with_buf a (imap (fun i v => if hits iy ix nby nbx i then c else v) (buf a)))
    else Raise (IndexError "index is out of bounds").
Proof. intros Hs. unfold setitem2. by rewrite Hs. Qed.

(** A run of assignments of one constant is one pass over the buffer. *)
Lemma setitems_2d tbl : forall a (c : V) nby nbx,
  shape a = [nby; nbx] ->
  setitems a tbl c =
    if tbl_in_bounds tbl nby nbx
    then Ok (with_buf a (imap (fun i v => if covers tbl nby nbx i then c else v) (buf a)))
    else Raise (IndexError "index is out of bounds").
Proof.
  induction tbl as [|[iy ix] tbl IH]; intros a c nby nbx Hs; simpl.
  - by rewrite imap_id, with_buf_id.
  - rewrite (setitem2_2d _ _ _ _ nby nbx Hs).
    destruct (in_bounds iy _ && in_bounds ix _); simpl; [|done].
    rewrite (IH _ c nby nbx) by done.
    destruct (tbl_in_bounds tbl nby nbx); [|done].
    simpl. rewrite with_buf_with_buf, imap_imap. do 2 f_equal.
    apply imap_ext; intros i v _. simpl.
    by destruct (hits iy ix nby nbx i), (covers tbl nby nbx i).
Qed.

Lemma setitems_bind {B} a iy ix tbl (c : V) (k : ndarray V -> result B) :
  (setitems a ((iy, ix) :: tbl) c ≫= k)
  = (setitem2 a iy ix c ≫= fun a => setitems a tbl c ≫= k).
Proof. simpl. by destruct (setitem2 a iy ix c). Qed.

Lemma setitems_nil_bind {B} a (c : V) (k : ndarray V -> result B) :
  (setitems a [] c ≫= k) = k a.
Proof. reflexivity. Qed.

End ArrayFacts.

Section GapFacts.
Context {V : Type} `{Scalar V}.
Implicit Types a data mask : ndarray V.

(** Peel one assignment off both sides of an equation between a method body
    and its table. *)
Ltac peel :=
  rewrite ?setitems_nil_bind; rewrite ?setitems_bind;
  match goal with
  | |- (setitem2 ?a ?iy ?ix ?c ≫= _) = _ =>
      destruct (setitem2 a iy ix c) as [?|?]; [rewrite !bind_Ok | reflexivity]
  end.

(** Each [_mask_gaps] runs its data table, then its mask table. *)
Lemma mask_gaps_table c data mask :
  _mask_gaps c data mask =
    (_ ← check_data_mask data mask;
     data ← setitems data (data_gaps c) zero;
     mask ← setitems mask (mask_gaps c) one;
     Ok (data, mask)).
Proof.
  destruct c; unfold _mask_gaps, Maxipix_mask_gaps, Eiger2M_mask_gaps,
    Eiger4M_mask_gaps, Merlin_mask_gaps, Detector_mask_gaps;
    destruct (check_data_mask data mask) as [[]|e]; try reflexivity;
    rewrite !bind_Ok; unfold data_gaps, mask_gaps, data_gaps;
    repeat peel; rewrite ?setitems_nil_bind; reflexivity.
Qed.

Lemma check_data_mask_2d data mask nby nbx my mx :
  shape data = [nby; nbx] -> shape mask = [my; mx] ->
  check_data_mask data mask = Ok ().
Proof.
  intros Hd Hm. unfold check_data_mask, ndim. by rewrite Hd, Hm.
Qed.

Lemma check_data_mask_Ok data mask :
  check_data_mask data mask = Ok () ->
  exists nby nbx my mx, shape data = [nby; nbx] /\ shape mask = [my; mx].
Proof.
  unfold check_data_mask, ndim.
  destruct (shape data) as [|nby [|nbx [|? ?]]] eqn:Hd; simpl; try done.
  destruct (shape mask) as [|my [|mx [|? ?]]] eqn:Hm; simpl; try done.
  intros _. by exists nby, nbx, my, mx.
Qed.

Lemma check_data_mask_cases data mask :
  check_data_mask data mask = Ok () \/
  exists msg, check_data_mask data mask = Raise (ValueError msg).
Proof.
  unfold check_data_mask. repeat case_decide; eauto.
Qed.

(** Gap masking in closed form: every integer index of the class's tables
    must fall inside the frame, and then each buffer is rewritten in one
    pass. *)
Lemma mask_gaps_2d c data mask nby nbx my mx :
  shape data = [nby; nbx] -> shape mask = [my; mx] ->
  _mask_gaps c data mask =
    if tbl_in_bounds (data_gaps c) nby nbx && tbl_in_bounds (mask_gaps c) my mx
    then Ok (with_buf data
               (imap (fun i v => if covers (data_gaps c) nby nbx i then zero else v)
                     (buf data)),
             with_buf mask
               (imap (fun i v => if covers (mask_gaps c) my mx i then one else v)
                     (buf mask)))
    else Raise (IndexError "index is out of bounds").
Proof.
  intros Hd Hm. rewrite mask_gaps_table.
  rewrite (check_data_mask_2d _ _ _ _ _ _ Hd Hm), bind_Ok.
  rewrite (setitems_2d _ _ _ _ _ Hd), (setitems_2d _ _ _ _ _ Hm).
  by destruct (tbl_in_bounds (data_gaps c) nby nbx),
              (tbl_in_bounds (mask_gaps c) my mx).
Qed.

Lemma hits_yx iy ix nby nbx y x :
  (x < nbx)%nat ->
  hits iy ix nby nbx (y * nbx + x)
  = selects iy (Z.of_nat nby) (Z.of_nat y) && selects ix (Z.of_nat nbx) (Z.of_nat x).
Proof.
  intros Hx. unfold hits.
  rewrite Nat2Z.inj_add, Nat2Z.inj_mul.
  assert (Hq : (Z.of_nat y * Z.of_nat nbx + Z.of_nat x) / Z.of_nat nbx = Z.of_nat y).
  { rewrite Z.div_add_l by lia. rewrite Z.div_small by lia. lia. }
  assert (Hr : (Z.of_nat y * Z.of_nat nbx + Z.of_nat x) mod Z.of_nat nbx = Z.of_nat x).
  { rewrite Z.add_comm, Z.mod_add by lia. apply Z.mod_small. lia. }
  by rewrite Hq, Hr.
Qed.

Lemma covers_yx_spec tbl nby nbx y x :
  (x < nbx)%nat -> covers tbl nby nbx (y * nbx + x) = covers_yx tbl nby nbx y x.
Proof.
  intros Hx. unfold covers, covers_yx.
  induction tbl as [|[iy ix] tbl IH]; simpl; [done|].
  by rewrite hits_yx, IH.
Qed.

Lemma get2_with_buf a (f : nat -> V -> V) y x nby nbx :
  shape a = [nby; nbx] ->
  get2 (with_buf a (imap f (buf a))) y x = f (y * nbx + x)%nat <$> get2 a y x.
Proof.
  intros Hs. unfold get2. simpl. rewrite Hs.
  case_decide; [|done]. by rewrite list_lookup_imap.
Qed.

Lemma get2_lt a y x v :
  get2 a y x = Some v ->
  exists nby nbx, shape a = [nby; nbx] /\ (y < nby)%nat /\ (x < nbx)%nat
                  /\ buf a !! (y * nbx + x)%nat = Some v.
Proof.
  unfold get2. destruct (shape a) as [|nby [|nbx [|? ?]]]; try done.
  case_decide as Hlt; [|done]. intros Hv. exists nby, nbx.
  destruct Hlt. by repeat split.
Qed.

(** What one pass of a table leaves at a pixel. *)
Lemma get2_covers a tbl (c : V) y x nby nbx :
  shape a = [nby; nbx] ->
  get2 (with_buf a (imap (fun i v => if covers tbl nby nbx i then c else v) (buf a))) y x
  = (fun v => if covers_yx tbl nby nbx y x then c else v) <$> get2 a y x.
Proof.
  intros Hs. rewrite (get2_with_buf _ _ _ _ _ _ Hs).
  destruct (get2 a y x) as [v|] eqn:Hv; [|done].
  apply get2_lt in Hv as (? & ? & Hs' & _ & Hx & _).
  rewrite Hs in Hs'. simplify_eq. simpl. by rewrite covers_yx_spec.
Qed.

End GapFacts.

Section FrameFacts.
Context {V : Type} `{Scalar V}.
Implicit Types a data mask : ndarray V.

Lemma get2_full dt nby nbx (c : V) y x :
  (y < nby)%nat -> (x < nbx)%nat -> get2 (full dt nby nbx c) y x = Some c.
Proof.
  intros Hy Hx. unfold get2, full. cbv beta iota delta [shape buf].
  rewrite decide_True by done. apply lookup_replicate_2. nia.
Qed.

(** Which frames a class's tables fit: only Eiger2M indexes columns by
    integers (478 and 481). *)
Lemma data_gaps_in_bounds c nby nbx :
  tbl_in_bounds (data_gaps c) nby nbx
  = match c with Eiger2M => bool_decide (481 < nbx)%nat | _ => true end.
Proof.
  destruct c; try reflexivity.
  unfold tbl_in_bounds, data_gaps, forallb, in_bounds, rng, all, upto.
  rewrite !andb_true_l, !andb_true_r.
  case_bool_decide; lia.
Qed.

Lemma mask_gaps_in_bounds c nby nbx :
  tbl_in_bounds (mask_gaps c) nby nbx
  = match c with Eiger2M => bool_decide (481 < nbx)%nat | _ => true end.
Proof.
  destruct c; try reflexivity.
  unfold tbl_in_bounds, mask_gaps, forallb, in_bounds, rng, all, upto.
  rewrite !andb_true_l, !andb_true_r.
  case_bool_decide; lia.
Qed.

(** Outside Eiger2M a class zeroes [data] and sets [mask] over one and the
    same list of ranges. *)
Lemma gaps_tables_agree c : c <> Eiger2M -> mask_gaps c = data_gaps c.
Proof. by destruct c. Qed.

End FrameFacts.

Section GapTheorems.
Context {V : Type} `{Scalar V}.
Implicit Types a data mask : ndarray V.

(** C5. Gap masking is idempotent for every detector class: running the
    class's [_mask_gaps] on its own output gives that output again; when the
    first run raises, so does the composite, with the same exception. *)
Theorem C5_mask_gaps_idempotent (c : model) data mask :
  (_mask_gaps c data mask ≫= fun '(d, m) => _mask_gaps c d m)
  = _mask_gaps c data mask.
Proof.
  destruct (check_data_mask data mask) as [[]|e] eqn:Hck.
  - apply check_data_mask_Ok in Hck as (nby & nbx & my & mx & Hd & Hm).
    rewrite (mask_gaps_2d c data mask nby nbx my mx Hd Hm).
    destruct (tbl_in_bounds (data_gaps c) nby nbx
              && tbl_in_bounds (mask_gaps c) my mx) eqn:Hb; [|done].
    rewrite bind_Ok.
    rewrite (mask_gaps_2d c _ _ nby nbx my mx) by done.
    rewrite Hb. simpl. rewrite !with_buf_with_buf, !imap_imap.
    do 2 f_equal; f_equal; apply imap_ext; intros i v _; simpl.
    + by destruct (covers (data_gaps c) nby nbx i).
    + by destruct (covers (mask_gaps c) my mx i).
  - rewrite mask_gaps_table, Hck. reflexivity.
Qed.

End GapTheorems.

Section GapPixels.
Context {V : Type} `{Scalar V}.
Implicit Types a data mask d m : ndarray V.

Lemma shape_full dt nby nbx (c : V) : shape (full dt nby nbx c) = [nby; nbx].
Proof. reflexivity. Qed.

(** The gap step succeeds on every 2D pair of one shape, except for Eiger2M
    frames of at most 481 columns. *)
Lemma mask_gaps_raises c data mask nby nbx :
  shape data = [nby; nbx] -> shape mask = [nby; nbx] ->
  raises (_mask_gaps c data mask) = false <-> (c <> Eiger2M \/ (481 < nbx)%nat).
Proof.
  intros Hd Hm. rewrite (mask_gaps_2d c data mask nby nbx nby nbx Hd Hm).
  rewrite data_gaps_in_bounds, mask_gaps_in_bounds.
  destruct c; simpl; try (split; [intros _; by left | done]).
  case_bool_decide; simpl; split; try done; try (by right).
  intros [?|?]; [done | lia].
Qed.

(** What a successful gap step leaves in the two arrays. *)
Lemma mask_gaps_Ok_inv c data mask nby nbx d m :
  shape data = [nby; nbx] -> shape mask = [nby; nbx] ->
  _mask_gaps c data mask = Ok (d, m) ->
  d = with_buf data
        (imap (fun i v => if covers (data_gaps c) nby nbx i then zero else v) (buf data))
  /\ m = with_buf mask
        (imap (fun i v => if covers (mask_gaps c) nby nbx i then one else v) (buf mask)).
Proof.
  intros Hd Hm. rewrite (mask_gaps_2d c data mask nby nbx nby nbx Hd Hm).
  destruct (_ && _); [|done]. intros [= <- <-]. done.
Qed.

Lemma mask_gaps_get2 c data mask nby nbx d m y x :
  shape data = [nby; nbx] -> shape mask = [nby; nbx] ->
  _mask_gaps c data mask = Ok (d, m) ->
  get2 d y x
    = (fun v => if covers_yx (data_gaps c) nby nbx y x then zero else v) <$> get2 data y x
  /\ get2 m y x
    = (fun v => if covers_yx (mask_gaps c) nby nbx y x then one else v) <$> get2 mask y x.
Proof.
  intros Hd Hm Hok.
  destruct (mask_gaps_Ok_inv _ _ _ _ _ _ _ Hd Hm Hok) as [-> ->].
  by rewrite !get2_covers.
Qed.

(** For a coordinate inside the axis the clamping of slice bounds plays no
    part: only the literal bounds decide. *)
Lemma selects_in_frame ix len k :
  0 <= k < len ->
  selects ix len k =
    match ix with
    | Int j => k =? literal len j
    | Slice a b =>
        (from_option (literal len) 0 a <=? k) && (k <? from_option (literal len) len b)
    end.
Proof.
  intros Hk. destruct ix as [j|[a|] [b|]]; unfold selects, from_option, adjust, literal;
    try reflexivity; repeat (case_match; try lia).
Qed.

(** Pixel (520, 0) of an Eiger2M frame: none of the data assignments reaches
    it, the mask assignment of rows 511 to 551 does. *)
Lemma Eiger2M_covers_520_0 nby nbx :
  (520 < nby)%nat -> (0 < nbx)%nat ->
  covers_yx (data_gaps Eiger2M) nby nbx 520 0 = false
  /\ covers_yx (mask_gaps Eiger2M) nby nbx 520 0 = true.
Proof.
  intros Hy Hx.
  assert (H520 : (Z.of_nat 520 <? Z.of_nat nby) = true) by lia.
  assert (H0 : (Z.of_nat 0 <? Z.of_nat nbx) = true) by lia.
  unfold covers_yx, data_gaps, mask_gaps, existsb.
  rewrite !selects_in_frame by lia.
  unfold rng, all, upto, from_option, literal.
  rewrite H520, H0. split; reflexivity.
Qed.

Lemma Eiger2M_pixel_520_0 data mask nby nbx v w :
  shape data = [nby; nbx] -> shape mask = [nby; nbx] ->
  (520 < nby)%nat -> (481 < nbx)%nat ->
  get2 data 520 0 = Some v -> get2 mask 520 0 = Some w ->
  exists d m, Eiger2M_mask_gaps data mask = Ok (d, m)
              /\ get2 d 520 0 = Some v /\ get2 m 520 0 = Some one.
Proof.
  intros Hd Hm Hy Hx Hv Hw.
  destruct (mask_gaps_raises Eiger2M data mask nby nbx Hd Hm) as [_ Hok].
  destruct (_mask_gaps Eiger2M data mask) as [[d m]|e] eqn:Hrun.
  - exists d, m. split; [exact Hrun|].
    destruct (mask_gaps_get2 Eiger2M data mask nby nbx d m 520 0 Hd Hm Hrun)
      as [Hgd Hgm].
    destruct (Eiger2M_covers_520_0 nby nbx) as [Hcd Hcm]; [lia..|].
    by rewrite Hgd, Hgm, Hcd, Hcm, Hv, Hw.
  - exfalso. assert (true = false) by (apply Hok; by right). done.
Qed.

End GapPixels.

(** ** Gap masking on concrete frames *)

(** C1 (the code departs from the claim for Eiger2M). On a full-size
    2164 by 1030 Eiger2M frame filled with 5 and an empty mask, gap masking
    sets the mask of pixel (520, 0) to 1 and leaves its data at 5: the data
    statement for rows 511 to 551 selects the empty column range [:0], the
    mask statement all columns. *)
Theorem C1_Eiger2M_rows_511_552 :
  exists d m,
    Eiger2M_mask_gaps (full int64 2164 1030 5) (full int64 2164 1030 0) = Ok (d, m)
    /\ get2 d 520 0 = Some 5 /\ get2 m 520 0 = Some 1.
Proof.
  destruct (Eiger2M_pixel_520_0 (full int64 2164 1030 5) (full int64 2164 1030 0)
              2164 1030 5 0) as (d & m & Hrun & Hd & Hm).
  - apply shape_full.
  - apply shape_full.
  - lia.
  - lia.
  - apply get2_full; lia.
  - apply get2_full; lia.
  - exists d, m. split; [exact Hrun|]. split; [exact Hd | exact Hm].
Qed.


(** ** Boolean-mask assignments: hot pixels and saturation *)

Section MaskedAssignment.
Context {V : Type} `{Scalar V}.
Implicit Types a data mask d m hp : ndarray V.

Lemma setitem_bool_Ok a bshape b (c : V) :
  bshape = shape a ->
  setitem_bool a bshape b c
  = Ok (with_buf a (imap (fun i v => if default false (b !! i) then c else v) (buf a))).
Proof. intros Hs. unfold setitem_bool. by rewrite decide_True. Qed.

Lemma setitem_bool_inv a bshape b (c : V) a' :
  setitem_bool a bshape b c = Ok a' ->
  a' = with_buf a (imap (fun i v => if default false (b !! i) then c else v) (buf a)).
Proof. unfold setitem_bool. case_decide; [|done]. by intros [= <-]. Qed.

(** Flat position and coordinates of a well-formed 2D array. *)
Lemma get2_flat a nby nbx i v :
  shape a = [nby; nbx] -> wf a -> buf a !! i = Some v ->
  get2 a (i / nbx) (i mod nbx) = Some v.
Proof.
  intros Hs Hwf Hi. unfold wf in Hwf. rewrite Hs in Hwf. simpl in Hwf.
  apply lookup_lt_Some in Hi as Hlt.
  assert (nbx <> 0)%nat by (intros ->; lia).
  unfold get2. rewrite Hs.
  assert (i / nbx < nby)%nat by (apply Nat.Div0.div_lt_upper_bound; lia).
  assert (i mod nbx < nbx)%nat by (by apply Nat.mod_upper_bound).
  rewrite decide_True by done.
  replace (i / nbx * nbx + i mod nbx)%nat with i; [done|].
  rewrite (Nat.div_mod_eq i nbx) at 1. lia.
Qed.

(** Reading a pixel after a boolean-mask assignment whose index array [b]
    is computed elementwise from an array [src] of the same shape. *)
Lemma get2_setitem_bool a src (p : V -> bool) (c : V) y x v s :
  shape src = shape a ->
  get2 a y x = Some v -> get2 src y x = Some s ->
  get2 (with_buf a (imap (fun i w => if default false ((p <$> buf src) !! i) then c else w)
                         (buf a))) y x
  = Some (if p s then c else v).
Proof.
  intros Hs Hv Hsrc.
  apply get2_lt in Hv as (nby & nbx & Ha & Hy & Hx & Hv).
  apply get2_lt in Hsrc as (? & ? & Hs' & _ & _ & Hsrc).
  rewrite Hs, Ha in Hs'. simplify_eq.
  rewrite (get2_with_buf _ _ _ _ _ _ Ha).
  unfold get2 at 1. rewrite Ha, decide_True by done. rewrite Hv. simpl.
  by rewrite list_lookup_fmap, Hsrc.
Qed.

Lemma imap_unchanged {A} (f : nat -> A -> A) (l : list A) :
  (forall i v, l !! i = Some v -> f i v = v) -> imap f l = l.
Proof.
  intros Hf. rewrite <- (imap_id l) at 2. by apply imap_ext.
Qed.

End MaskedAssignment.

Section Saturation.
Context {V : Type} `{Scalar V}.
Implicit Types a data mask d m : ndarray V.

(** C3. For a detector with a saturation threshold, a positive integer
    [nb_frames] and a well-formed 2D data/mask pair of one shape, the
    saturation step returns; at a pixel whose data exceeds
    [threshold * nb_frames] the data becomes 0 and the mask 1, every other
    pixel of data and mask keeps its value; shapes and dtypes are kept; and
    when no pixel exceeds the bound the two arrays come back unchanged. *)
Theorem C3_saturation_correction self data mask threshold n nby nbx :
  saturation_threshold self = Some threshold ->
  0 < n ->
  shape data = [nby; nbx] -> shape mask = [nby; nbx] -> wf data ->
  let bound := s_mul threshold (of_Z n) in
  exists d m,
    _saturation_correction self data mask (PyInt n) = Ok (d, m)
    /\ (shape d = shape data /\ dtype d = dtype data)
    /\ (shape m = shape mask /\ dtype m = dtype mask)
    /\ (forall y x v w,
          get2 data y x = Some v -> get2 mask y x = Some w ->
          get2 d y x = Some (if s_gtb v bound then zero else v)
          /\ get2 m y x = Some (if s_gtb v bound then one else w))
    /\ ((forall y x v, get2 data y x = Some v -> s_gtb v bound = false) ->
        d = data /\ m = mask).
Proof.
  intros Hthr Hn Hd Hm Hwf bound.
  unfold _saturation_correction. rewrite Hthr.
  rewrite (check_data_mask_2d _ _ _ _ _ _ Hd Hm), bind_Ok.
  unfold valid_item_int. replace (0 <? n) with true by lia. rewrite bind_Ok.
  rewrite (setitem_bool_Ok mask) by congruence. rewrite bind_Ok.
  rewrite (setitem_bool_Ok data) by done. rewrite bind_Ok.
  fold bound. do 2 eexists. split; [reflexivity|].
  split; [done|]. split; [done|]. split.
  - intros y x v w Hv Hw. unfold gt_scalar. split.
    + by apply (get2_setitem_bool data data (fun v => s_gtb v bound)).
    + apply (get2_setitem_bool mask data (fun v => s_gtb v bound));
        [congruence | done..].
  - intros Hbelow.
    assert (Hb : forall i, default false (gt_scalar data bound !! i) = false).
    { intros i. unfold gt_scalar. rewrite list_lookup_fmap.
      destruct (buf data !! i) as [v|] eqn:Hi; [|done]. simpl.
      eapply Hbelow, get2_flat; done. }
    split.
    + transitivity (with_buf data (buf data)); [|apply with_buf_id].
      f_equal. apply imap_unchanged. intros i v _. by rewrite Hb.
    + transitivity (with_buf mask (buf mask)); [|apply with_buf_id].
      f_equal. apply imap_unchanged. intros i v _. by rewrite Hb.
Qed.

End Saturation.

Section HotPixels.
Context {V : Type} `{Scalar V}.
Implicit Types a data mask d m hp : ndarray V.

Lemma bool_sum_fmap_le (p : V -> bool) (l : list V) :
  (bool_sum (p <$> l) <= length l)%nat.
Proof.
  induction l as [|v l IH]; [simpl; lia|].
  rewrite fmap_cons. cbn [bool_sum length]. destruct (p v); lia.
Qed.

Lemma count_01_le (l : list V) :
  zero_one_apart ->
  (bool_sum ((fun v => s_eqb v (of_Z 0)) <$> l)
   + bool_sum ((fun v => s_eqb v (of_Z 1)) <$> l) <= length l)%nat.
Proof.
  intros Hap. induction l as [|v l IH]; [simpl; lia|].
  rewrite !fmap_cons. cbn [bool_sum length].
  destruct (s_eqb v (of_Z 0)) eqn:H0, (s_eqb v (of_Z 1)) eqn:H1; try lia.
  destruct (Hap v H0 H1).
Qed.

(** The test of the source, [(hp == 0).sum() + (hp == 1).sum() != hp.size],
    fails exactly when some element is neither 0 nor 1. *)
Lemma count_01_eq (l : list V) :
  zero_one_apart ->
  (bool_sum ((fun v => s_eqb v (of_Z 0)) <$> l)
   + bool_sum ((fun v => s_eqb v (of_Z 1)) <$> l))%nat = length l
  <-> (forall v, v ∈ l -> s_eqb v zero || s_eqb v one = true).
Proof.
  intros Hap. induction l as [|v l IH].
  - split; [|done]. intros _ v Hv. by apply elem_of_nil in Hv.
  - pose proof (count_01_le l Hap) as Hle.
    rewrite !fmap_cons. cbn [bool_sum length].
    destruct (s_eqb v (of_Z 0)) eqn:H0, (s_eqb v (of_Z 1)) eqn:H1.
    + destruct (Hap v H0 H1).
    + split.
      * intros Hsum v' [->|Hv']%elem_of_cons.
        -- unfold zero. by rewrite H0.
        -- apply IH; [lia | done].
      * intros Hall.
        enough ((bool_sum ((fun v => s_eqb v (of_Z 0)) <$> l)
                 + bool_sum ((fun v => s_eqb v (of_Z 1)) <$> l))%nat = length l) by lia.
        apply IH. intros v' Hv'. apply Hall. by right.
    + split.
      * intros Hsum v' [->|Hv']%elem_of_cons.
        -- unfold zero, one. by rewrite H0, H1.
        -- apply IH; [lia | done].
      * intros Hall.
        enough ((bool_sum ((fun v => s_eqb v (of_Z 0)) <$> l)
                 + bool_sum ((fun v => s_eqb v (of_Z 1)) <$> l))%nat = length l) by lia.
        apply IH. intros v' Hv'. apply Hall. by right.
    + split; [lia|]. intros Hall.
      specialize (Hall v (list_elem_of_here _ _)).
      unfold zero, one in Hall. by rewrite H0, H1 in Hall.
Qed.

Lemma flatfield_cases data ff :
  (exists d, _flatfield_correction data ff = Ok d)
  \/ exists msg, _flatfield_correction data ff = Raise (ValueError msg).
Proof.
  unfold _flatfield_correction. case_decide; [eauto|].
  destruct ff; [case_decide|]; eauto.
Qed.

Lemma background_cases data bg :
  (exists d, _background_subtraction data bg = Ok d)
  \/ exists msg, _background_subtraction data bg = Raise (ValueError msg).
Proof.
  unfold _background_subtraction. case_decide; [eauto|].
  destruct bg; [case_decide|]; eauto.
Qed.

Lemma hotpixels_invalid data mask hp :
  zero_one_apart ->
  (exists v, v ∈ buf hp /\ s_eqb v zero = false /\ s_eqb v one = false) ->
  is_ValueError (_hotpixels_correction data mask (Some hp)) = true.
Proof.
  intros Hap (v & Hin & H0 & H1). unfold _hotpixels_correction.
  destruct (check_data_mask_cases data mask) as [->|[msg ->]]; [|done].
  rewrite bind_Ok. case_decide; [done|].
  rewrite decide_True; [done|].
  unfold eq_scalar, size. intros Hsum.
  pose proof (proj1 (count_01_eq (buf hp) Hap) Hsum v Hin) as Hv.
  by rewrite H0, H1 in Hv.
Qed.

(** C4. A [hotpixels] array, of any shape, holding a value that is neither
    0 nor 1 makes the hot-pixel step raise a ValueError whatever data and
    mask are, and so does [mask_detector] for every detector and every other
    argument.  When [hotpixels] has the shape of a 2D [data] (and of
    [mask]) and holds only 0 and 1, the step returns, and at each pixel data
    is 0 and mask is 1 where [hotpixels] is 1, both unchanged elsewhere. *)
Theorem C4_hotpixels_correction data mask hp :
  zero_one_apart ->
  ((exists v, v ∈ buf hp /\ s_eqb v zero = false /\ s_eqb v one = false) ->
   is_ValueError (_hotpixels_correction data mask (Some hp)) = true
   /\ forall self nb_frames flatfield background,
        is_ValueError (mask_detector self data mask nb_frames flatfield background
                         (Some hp)) = true)
  /\ ((forall v, v ∈ buf hp -> s_eqb v zero || s_eqb v one = true) ->
      ndim data = 2%nat -> shape hp = shape data -> shape mask = shape data ->
      exists d m,
        _hotpixels_correction data mask (Some hp) = Ok (d, m)
        /\ shape d = shape data /\ shape m = shape mask
        /\ forall y x h v w,
             get2 hp y x = Some h -> get2 data y x = Some v ->
             get2 mask y x = Some w ->
             get2 d y x = Some (if s_eqb h one then zero else v)
             /\ get2 m y x = Some (if s_eqb h one then one else w)).
Proof.
  intros Hap. split.
  - intros Hbad. split; [by apply hotpixels_invalid|].
    intros self nb ff bg. unfold mask_detector.
    case_decide; [done|]. case_decide; [done|].
    destruct (flatfield_cases (linearity_step self data) ff) as [[d1 ->]|[msg ->]];
      [|done].
    rewrite bind_Ok.
    destruct (background_cases d1 bg) as [[d2 ->]|[msg ->]]; [|done].
    rewrite bind_Ok.
    pose proof (hotpixels_invalid d2 mask hp Hap Hbad) as Hv.
    by destruct (_hotpixels_correction d2 mask (Some hp)) as [[]|[]].
  - intros Hall Hnd Hhp Hm. unfold _hotpixels_correction.
    assert (Hck : check_data_mask data mask = Ok ()).
    { unfold check_data_mask, ndim in *. rewrite Hm.
      rewrite decide_False by (intros ?; done).
      by rewrite decide_False by (intros ?; done). }
    rewrite Hck, bind_Ok.
    rewrite decide_False by (intros ?; done).
    rewrite decide_False.
    2:{ intros Hne. apply Hne. unfold eq_scalar, size.
        exact (proj2 (count_01_eq (buf hp) Hap) Hall). }
    rewrite (setitem_bool_Ok data) by done. rewrite bind_Ok.
    rewrite (setitem_bool_Ok mask) by congruence. rewrite bind_Ok.
    do 2 eexists. split; [reflexivity|]. split; [done|]. split; [done|].
    intros y x h v w Hh Hv Hw. unfold eq_scalar. split.
    + by apply (get2_setitem_bool data hp (fun v => s_eqb v (of_Z 1))).
    + apply (get2_setitem_bool mask hp (fun v => s_eqb v (of_Z 1)));
        [congruence | done..].
Qed.

End HotPixels.

(** ** The mask only grows *)

Section MaskMonotone.
Context {V : Type} `{Scalar V}.
Implicit Types a data mask d m : ndarray V.

Lemma only_sets_one_refl m : only_sets_one m m.
Proof. split; [done|]. intros i v Hv. by left. Qed.

Lemma only_sets_one_trans m1 m2 m3 :
  only_sets_one m1 m2 -> only_sets_one m2 m3 -> only_sets_one m1 m3.
Proof.
  intros [Hs1 H1] [Hs2 H2]. split; [congruence|].
  intros i v Hv. destruct (H1 i v Hv) as [Hv2|Hv2].
  - apply (H2 i v Hv2).
  - right. by destruct (H2 i one Hv2).
Qed.

Lemma only_sets_one_imap m (sel : nat -> bool) :
  only_sets_one m (with_buf m (imap (fun i v => if sel i then one else v) (buf m))).
Proof.
  split; [done|]. intros i v Hv. simpl. rewrite list_lookup_imap, Hv. simpl.
  destruct (sel i); eauto.
Qed.

Lemma hotpixels_only_sets_one data mask hp d m :
  _hotpixels_correction data mask hp = Ok (d, m) -> only_sets_one mask m.
Proof.
  unfold _hotpixels_correction.
  destruct (check_data_mask data mask) as [[]|]; [|done]. rewrite bind_Ok.
  destruct hp as [hp|].
  - do 2 (case_decide; [done|]).
    destruct (setitem_bool data _ _ _) as [d'|]; [|done]. rewrite bind_Ok.
    destruct (setitem_bool mask _ _ _) as [m'|] eqn:Hm; [|done]. rewrite bind_Ok.
    intros [= <- <-]. apply setitem_bool_inv in Hm as ->.
    apply (only_sets_one_imap mask (fun i => default false (eq_scalar hp 1 !! i))).
  - intros [= <- <-]. apply only_sets_one_refl.
Qed.

Lemma mask_gaps_only_sets_one c data mask d m :
  _mask_gaps c data mask = Ok (d, m) -> only_sets_one mask m.
Proof.
  intros Hrun.
  destruct (check_data_mask data mask) as [[]|e] eqn:Hck.
  - apply check_data_mask_Ok in Hck as (nby & nbx & my & mx & Hd & Hm).
    rewrite (mask_gaps_2d c data mask nby nbx my mx Hd Hm) in Hrun.
    destruct (_ && _); [|done]. injection Hrun as <- <-.
    apply (only_sets_one_imap mask (covers (mask_gaps c) my mx)).
  - rewrite mask_gaps_table, Hck in Hrun. done.
Qed.

Lemma saturation_only_sets_one self data mask nb d m :
  _saturation_correction self data mask nb = Ok (d, m) -> only_sets_one mask m.
Proof.
  unfold _saturation_correction.
  destruct (saturation_threshold self) as [thr|].
  - destruct (check_data_mask data mask) as [[]|]; [|done]. rewrite bind_Ok.
    destruct (valid_item_int nb 0 "nb_frames") as [n|]; [|done]. rewrite bind_Ok.
    destruct (setitem_bool mask _ _ _) as [m'|] eqn:Hm; [|done]. rewrite bind_Ok.
    destruct (setitem_bool data _ _ _) as [d'|]; [|done]. rewrite bind_Ok.
    intros [= <- <-]. apply setitem_bool_inv in Hm as ->.
    apply (only_sets_one_imap mask
             (fun i => default false (gt_scalar data (s_mul thr (of_Z n)) !! i))).
  - intros [= <- <-]. apply only_sets_one_refl.
Qed.

Lemma mask_detector_only_sets_one self data mask nb ff bg hp d m :
  mask_detector self data mask nb ff bg hp = Ok (d, m) -> only_sets_one mask m.
Proof.
  unfold mask_detector. do 2 (case_decide; [done|]).
  destruct (_flatfield_correction _ ff) as [d1|]; [|done]. rewrite bind_Ok.
  destruct (_background_subtraction d1 bg) as [d2|]; [|done]. rewrite bind_Ok.
  destruct (_hotpixels_correction d2 mask hp) as [[d3 m3]|] eqn:Hhp; [|done].
  rewrite bind_Ok.
  destruct (_mask_gaps (class_ self) d3 m3) as [[d4 m4]|] eqn:Hgap; [|done].
  rewrite bind_Ok. intros Hsat.
  eapply only_sets_one_trans; [by eapply hotpixels_only_sets_one|].
  eapply only_sets_one_trans; [by eapply mask_gaps_only_sets_one|].
  by eapply saturation_only_sets_one.
Qed.

(** C8. Whenever [mask_detector] returns, for any detector and any
    arguments, the returned mask has the shape of the input mask and every
    pixel that was 1 in the input mask is 1 in the returned one. *)
Theorem C8_mask_monotone self data mask nb_frames flatfield background hotpixels d m :
  mask_detector self data mask nb_frames flatfield background hotpixels = Ok (d, m) ->
  shape m = shape mask
  /\ forall y x, get2 mask y x = Some one -> get2 m y x = Some one.
Proof.
  intros Hrun. apply mask_detector_only_sets_one in Hrun as [Hs Hkeep].
  split; [done|]. intros y x Hone.
  apply get2_lt in Hone as (nby & nbx & Hm & Hy & Hx & Hone).
  unfold get2. rewrite Hs, Hm, decide_True by done.
  by destruct (Hkeep _ _ Hone).
Qed.

End MaskMonotone.

(** ** Configuration: setters and constructors *)

Lemma bind_Ok_inv {A B} (m : result A) (k : A -> result B) b :
  (m ≫= k) = Ok b -> exists a, m = Ok a /\ k a = Ok b.
Proof. destruct m as [a|e]; [|done]. intros Hk. by exists a. Qed.

Section Configuration.
Context {V : Type} `{Scalar V}.
Implicit Types self s : Detector V.

Lemma valid_container_int_Ok l len lo name :
  valid_container_int (Some l) len lo false name = Ok () ->
  length l = len /\ forall z, z ∈ l -> from_option (fun m => m < z) True lo.
Proof.
  unfold valid_container_int.
  destruct (bool_decide (length l = len)
            && forallb (fun z => from_option (fun m => m <? z) true lo) l) eqn:Hb;
    [|done].
  intros _. apply andb_prop in Hb as [Hlen Hall].
  apply bool_decide_eq_true in Hlen. split; [done|].
  intros z Hz%list_elem_of_In. rewrite forallb_forall in Hall.
  specialize (Hall z Hz). destruct lo; simpl in *; [lia|done].
Qed.

Lemma valid_container_int_len l name :
  length l = 4%nat -> valid_container_int (Some l) 4 None false name = Ok ().
Proof.
  intros Hl. unfold valid_container_int. rewrite bool_decide_eq_true_2 by done.
  replace (forallb _ l) with true; [done|].
  symmetry. by apply forallb_forall.
Qed.

Lemma preprocessing_binning_setter_inv self v s :
  preprocessing_binning_setter self v = Ok s ->
  s = with_preprocessing_binning self v
  /\ length v = 3%nat /\ forall b, b ∈ v -> 0 < b.
Proof.
  unfold preprocessing_binning_setter.
  intros ([] & Hv & [= <-])%bind_Ok_inv.
  apply valid_container_int_Ok in Hv as [Hl Hpos]. done.
Qed.

Lemma binning_setter_inv self v s :
  binning_setter self v = Ok s -> s = with_binning self v.
Proof. unfold binning_setter. by intros ([] & _ & [= <-])%bind_Ok_inv. Qed.

Lemma roi_setter_inv self v s :
  roi_setter self v = Ok s -> exists r, s = with_roi self r /\ length r = 4%nat.
Proof.
  unfold roi_setter. intros (r & _ & ([] & Hv & [= <-])%bind_Ok_inv)%bind_Ok_inv.
  apply valid_container_int_Ok in Hv as [Hl _]. by exists r.
Qed.

Lemma sum_roi_setter_inv self v s :
  sum_roi_setter self v = Ok s -> exists r, s = with_sum_roi self r /\ length r = 4%nat.
Proof.
  unfold sum_roi_setter.
  intros (r & _ & ([] & Hv & [= <-])%bind_Ok_inv)%bind_Ok_inv.
  apply valid_container_int_Ok in Hv as [Hl _]. by exists r.
Qed.

Lemma str_setter_inv (f : Detector V -> option string -> Detector V) self v n name s :
  (_ ← valid_container_str v n name; Ok (f self v)) = Ok s -> s = f self v.
Proof. by intros ([] & _ & [= <-])%bind_Ok_inv. Qed.

(** What [Detector.__init__] leaves behind when it returns. *)
Lemma Detector_init_inv self kw s :
  Detector_init self kw = Ok s ->
  class_ s = class_ self
  /\ custom_pixelnumber s = custom_pixelnumber self
  /\ saturation_threshold s = None
  /\ _linearity_func s = kw_linearity_func kw
  /\ length (_preprocessing_binning s) = 3%nat
  /\ (forall b, b ∈ _preprocessing_binning s -> 0 < b)
  /\ length (_roi s) = 4%nat
  /\ length (_sum_roi s) = 4%nat.
Proof.
  unfold Detector_init.
  intros (s1 & H1 & H')%bind_Ok_inv. cbv zeta in H'.
  apply bind_Ok_inv in H' as (s2 & H2 & H').
  apply bind_Ok_inv in H' as (s3 & H3 & H').
  apply bind_Ok_inv in H' as (s4 & H4 & H').
  apply bind_Ok_inv in H' as (s5 & H5 & H').
  apply bind_Ok_inv in H' as (s6 & H6 & H').
  apply bind_Ok_inv in H' as (s7 & H7 & H').
  apply bind_Ok_inv in H' as (s8 & H8 & H').
  apply bind_Ok_inv in H' as (s9 & H9 & H').
  apply bind_Ok_inv in H' as (s10 & H10 & H').
  apply bind_Ok_inv in H' as (s11 & H11 & H').
  injection H' as <-. injection H11 as <-.
  apply str_setter_inv in H5, H6, H7, H8, H9, H10. subst s10 s9 s8 s7 s6 s5.
  apply sum_roi_setter_inv in H4 as (r4 & -> & Hr4).
  apply roi_setter_inv in H3 as (r3 & -> & Hr3).
  apply binning_setter_inv in H2 as ->.
  apply preprocessing_binning_setter_inv in H1 as (-> & Hl & Hpos).
  simpl. done.
Qed.

Lemma create_detector_inv name kw s :
  create_detector name kw = Ok s ->
  (name = "Maxipix" /\ class_ s = Maxipix /\ saturation_threshold s = Some (of_Z 1000000)
   \/ name = "Eiger2M" /\ class_ s = Eiger2M
      /\ saturation_threshold s = Some (of_Z 1000000)
   \/ name = "Eiger4M" /\ class_ s = Eiger4M
      /\ saturation_threshold s = Some (of_Z 4000000000)
   \/ name = "Timepix" /\ class_ s = Timepix /\ saturation_threshold s = None
   \/ name = "Merlin" /\ class_ s = Merlin /\ saturation_threshold s = Some (of_Z 1000000)
   \/ name = "Dummy" /\ class_ s = Dummy /\ saturation_threshold s = None)
  /\ _linearity_func s = kw_linearity_func kw
  /\ config_ok s /\ length (roi s) = 4%nat /\ length (sum_roi s) = 4%nat.
Proof.
  unfold create_detector, config_ok, roi, sum_roi, unbinned_pixel_number.
  repeat case_decide; subst; try done.
  - unfold Maxipix_init. intros (s0 & Hi & [= <-])%bind_Ok_inv.
    apply Detector_init_inv in Hi as (Hc & ? & ? & ? & ? & ? & ? & ?).
    simpl in *. rewrite Hc. naive_solver.
  - unfold Eiger2M_init. intros (s0 & Hi & [= <-])%bind_Ok_inv.
    apply Detector_init_inv in Hi as (Hc & ? & ? & ? & ? & ? & ? & ?).
    simpl in *. rewrite Hc. naive_solver.
  - unfold Eiger4M_init. intros (s0 & Hi & [= <-])%bind_Ok_inv.
    apply Detector_init_inv in Hi as (Hc & ? & ? & ? & ? & ? & ? & ?).
    simpl in *. rewrite Hc. naive_solver.
  - unfold Timepix_init. intros Hi.
    apply Detector_init_inv in Hi as (Hc & ? & ? & ? & ? & ? & ? & ?).
    simpl in *. rewrite Hc. naive_solver.
  - unfold Merlin_init. intros (s0 & Hi & [= <-])%bind_Ok_inv.
    apply Detector_init_inv in Hi as (Hc & ? & ? & ? & ? & ? & ? & ?).
    simpl in *. rewrite Hc. naive_solver.
  - unfold Dummy_init. cbv zeta.
    intros ([] & _ & ([] & Hcp & Hi)%bind_Ok_inv)%bind_Ok_inv.
    apply Detector_init_inv in Hi as (Hc & Hn & ? & ? & ? & ? & ? & ?).
    simpl in *. rewrite Hc, Hn.
    assert (length match kw_custom_pixelnumber kw with
                   | Some l => l
                   | None => [516; 516]
                   end = 2%nat).
    { destruct (kw_custom_pixelnumber kw) as [l|]; [|done].
      unfold valid_container_int in Hcp.
      destruct (bool_decide (length l = 2%nat)) eqn:Hl; [|done].
      by apply bool_decide_eq_true in Hl. }
    naive_solver.
Qed.

End Configuration.

Section RoiDefaults.
Context {V : Type} `{Scalar V}.
Implicit Types self s : Detector V.

Lemma config_ok_inv self :
  config_ok self ->
  exists n0 n1 b0 b1 b2,
    unbinned_pixel_number self = [n0; n1]
    /\ _preprocessing_binning self = [b0; b1; b2]
    /\ 0 < b1 /\ 0 < b2.
Proof.
  intros (Hb & Hpos & Hn).
  destruct (unbinned_pixel_number self) as [|n0 [|n1 [|? ?]]]; try done.
  destruct (_preprocessing_binning self) as [|b0 [|b1 [|b2 [|? ?]]]]; try done.
  exists n0, n1, b0, b1, b2. repeat split.
  - apply Hpos. apply list_elem_of_further, list_elem_of_here.
  - apply Hpos. do 2 apply list_elem_of_further. apply list_elem_of_here.
Qed.

(** C6. In every configuration the setters can produce (three positive
    preprocessing-binning factors, two pixel numbers), assigning [None] or
    an empty sequence to [roi] stores [[0, nb_pixel_y, 0, nb_pixel_x]];
    assigning it to [sum_roi] stores [roi] when [roi] holds its four
    integers, and the same full frame when [roi] is empty.  The pixel
    numbers are the unbinned ones floor-divided by the preprocessing
    binning the detector holds at the time of the assignment. *)
Theorem C6_roi_defaults self value :
  config_ok self ->
  value = None \/ value = Some [] ->
  exists n0 n1 b0 b1 b2,
    unbinned_pixel_number self = [n0; n1]
    /\ _preprocessing_binning self = [b0; b1; b2]
    /\ nb_pixel_y self = Ok (n0 / b1)
    /\ nb_pixel_x self = Ok (n1 / b2)
    /\ (exists s, roi_setter self value = Ok s
                  /\ roi s = [0; n0 / b1; 0; n1 / b2])
    /\ (length (roi self) = 4%nat ->
        exists s, sum_roi_setter self value = Ok s /\ sum_roi s = roi self)
    /\ (roi self = [] ->
        exists s, sum_roi_setter self value = Ok s
                  /\ sum_roi s = [0; n0 / b1; 0; n1 / b2]).
Proof.
  intros Hok Hval.
  destruct (config_ok_inv self Hok) as (n0 & n1 & b0 & b1 & b2 & Hn & Hb & Hb1 & Hb2).
  exists n0, n1, b0, b1, b2.
  assert (Hy : nb_pixel_y self = Ok (n0 / b1)).
  { unfold nb_pixel_y. rewrite Hn, Hb. simpl. unfold floordiv.
    by replace (b1 =? 0) with false by lia. }
  assert (Hx : nb_pixel_x self = Ok (n1 / b2)).
  { unfold nb_pixel_x. rewrite Hn, Hb. simpl. unfold floordiv.
    by replace (b2 =? 0) with false by lia. }
  repeat split; try done.
  - exists (with_roi self [0; n0 / b1; 0; n1 / b2]). split; [|reflexivity].
    unfold roi_setter. destruct Hval as [-> | ->]; by rewrite Hy, Hx.
  - intros Hlen. exists (with_sum_roi self (roi self)). split; [|reflexivity].
    unfold sum_roi_setter.
    destruct (roi self) as [|r0 rs] eqn:Hr; [done|].
    destruct Hval as [-> | ->]; rewrite bind_Ok;
      by rewrite valid_container_int_len.
  - intros Hr. exists (with_sum_roi self [0; n0 / b1; 0; n1 / b2]).
    split; [|reflexivity].
    unfold sum_roi_setter. rewrite Hr.
    destruct Hval as [-> | ->]; by rewrite Hy, Hx.
Qed.

(** C7. For a name that is none of the six detector names the factory
    raises NotImplementedError with a message holding that name; no
    constructor runs and no detector is returned. *)
Theorem C7_create_detector_unsupported (name : string) (kw : kwargs V) :
  name ∉ ["Maxipix"; "Eiger2M"; "Eiger4M"; "Timepix"; "Merlin"; "Dummy"] ->
  create_detector name kw
  = Raise (NotImplementedError ("No implementation for the " +:+ name +:+ " detector")).
Proof.
  intros Hn. unfold create_detector.
  repeat (rewrite decide_False;
          [|intros ->; apply Hn;
            repeat first [apply list_elem_of_here | apply list_elem_of_further]]).
  reflexivity.
Qed.

End RoiDefaults.

(** ** The pipeline as a whole *)

Section Pipeline.
Context {V : Type} `{Scalar V}.
Implicit Types self : Detector V.
Implicit Types a data mask d m : ndarray V.

(** With no flatfield, background or hot pixels, [mask_detector] is the
    linearity call, the gap step and the saturation step. *)
Lemma mask_detector_no_corrections self data mask nb nby nbx :
  shape data = [nby; nbx] -> shape mask = [nby; nbx] ->
  shape (linearity_step self data) = [nby; nbx] ->
  mask_detector self data mask nb None None None
  = ('(d, m) ← _mask_gaps (class_ self) (linearity_step self data) mask;
     _saturation_correction self d m nb).
Proof.
  intros Hd Hm Hl. unfold mask_detector, ndim. cbv zeta. rewrite Hd, Hm. simpl length.
  rewrite decide_False by (intros [?|?]; done).
  rewrite decide_False by (intros ?; done).
  unfold _flatfield_correction, _background_subtraction, _hotpixels_correction, ndim.
  rewrite Hl. simpl length.
  rewrite decide_False by (intros ?; done). rewrite bind_Ok.
  rewrite Hl. simpl length.
  rewrite decide_False by (intros ?; done). rewrite bind_Ok.
  by rewrite (check_data_mask_2d _ _ _ _ _ _ Hl Hm).
Qed.

Lemma saturation_returns self d m n nby nbx :
  shape d = [nby; nbx] -> shape m = [nby; nbx] -> 0 < n ->
  raises (_saturation_correction self d m (PyInt n)) = false.
Proof.
  intros Hd Hm Hn. unfold _saturation_correction.
  destruct (saturation_threshold self); [|done].
  rewrite (check_data_mask_2d _ _ _ _ _ _ Hd Hm), bind_Ok.
  unfold valid_item_int. replace (0 <? n) with true by lia. rewrite bind_Ok.
  rewrite (setitem_bool_Ok m) by congruence. rewrite bind_Ok.
  by rewrite (setitem_bool_Ok d).
Qed.

(** Without a threshold the saturation step hands its arguments back and
    never looks at [nb_frames]; with one, it validates [nb_frames]. *)
Lemma saturation_no_threshold self data mask nb :
  saturation_threshold self = None ->
  _saturation_correction self data mask nb = Ok (data, mask).
Proof. intros Hn. unfold _saturation_correction. by rewrite Hn. Qed.

Lemma saturation_validates self threshold data mask nb nby nbx :
  saturation_threshold self = Some threshold ->
  shape data = [nby; nbx] -> shape mask = [nby; nbx] ->
  nb = PyNotInt \/ (exists n, nb = PyInt n /\ n <= 0) ->
  _saturation_correction self data mask nb = Raise (ValidationError "nb_frames").
Proof.
  intros Ht Hd Hm Hnb. unfold _saturation_correction. rewrite Ht.
  rewrite (check_data_mask_2d _ _ _ _ _ _ Hd Hm), bind_Ok.
  destruct Hnb as [-> | (n & -> & Hn)]; [done|].
  unfold valid_item_int. by replace (0 <? n) with false by lia.
Qed.

(** C9. A detector made by the factory under the name Timepix or Dummy has
    no saturation threshold; its saturation step returns its arguments for
    any [nb_frames], and the result of [mask_detector], value or exception,
    is the same for any two [nb_frames], integers or not.  With a threshold
    the saturation step rejects an [nb_frames] that is no positive
    integer. *)
Theorem C9_nb_frames_unchecked_without_threshold name kw self :
  name = "Timepix" \/ name = "Dummy" ->
  create_detector name kw = Ok self ->
  saturation_threshold self = None
  /\ (forall data mask nb, _saturation_correction self data mask nb = Ok (data, mask))
  /\ (forall data mask nb nb' flatfield background hotpixels,
        mask_detector self data mask nb flatfield background hotpixels
        = mask_detector self data mask nb' flatfield background hotpixels)
  /\ (forall self' threshold data mask nb nby nbx,
        saturation_threshold self' = Some threshold ->
        shape data = [nby; nbx] -> shape mask = [nby; nbx] ->
        nb = PyNotInt \/ (exists n, nb = PyInt n /\ n <= 0) ->
        _saturation_correction self' data mask nb
        = Raise (ValidationError "nb_frames")).
Proof.
  intros Hname Hmk.
  assert (Hnone : saturation_threshold self = None).
  { apply create_detector_inv in Hmk as (Hcases & _).
    destruct Hname as [-> | ->]; intuition (try done). }
  split; [done|]. split; [by intros; apply saturation_no_threshold|].
  split; [|by intros; eapply saturation_validates].
  intros data mask nb nb' ff bg hp. unfold mask_detector.
  do 2 (case_decide; [done|]).
  destruct (_flatfield_correction _ ff) as [d1|]; [|done]. rewrite !bind_Ok.
  destruct (_background_subtraction d1 bg) as [d2|]; [|done]. rewrite !bind_Ok.
  destruct (_hotpixels_correction d2 mask hp) as [[d3 m3]|]; [|done].
  rewrite !bind_Ok.
  destruct (_mask_gaps (class_ self) d3 m3) as [[d4 m4]|]; [|done].
  rewrite !bind_Ok.
  by rewrite !saturation_no_threshold.
Qed.

(** On a Maxipix frame of fewer than 256 rows only the column band counts. *)
Lemma Maxipix_covers_short nby nbx y x :
  (y < nby)%nat -> (x < nbx)%nat -> (nby < 256)%nat ->
  covers_yx (data_gaps Maxipix) nby nbx y x = bool_decide (255 <= x < 261)%nat.
Proof.
  intros Hy Hx Hshort. unfold covers_yx, data_gaps, existsb.
  rewrite !selects_in_frame by lia.
  unfold rng, all, from_option, literal.
  change (255 <? 0) with false. change (261 <? 0) with false. cbv iota.
  case_bool_decide; lia.
Qed.

(** C10 (amended). [mask_detector] does not compare the frame with the
    detector's pixel numbers.  With the optional corrections left out, a
    positive integer [nb_frames] and a 2D data/mask pair of one shape, of any
    size, the call returns for Maxipix, Eiger4M, Merlin, Timepix and Dummy,
    and for Eiger2M exactly when the frame has more than 481 columns: below
    that the integer column indices 478 and 481 raise IndexError.  Slices
    clamp to the frame: a Maxipix frame of fewer than 256 rows passes gap
    masking, which writes columns 255 to 260 as far as they exist and no
    row band. *)
Theorem C10_mask_detector_any_frame_shape self data mask n nby nbx :
  shape data = [nby; nbx] -> shape mask = [nby; nbx] ->
  shape (linearity_step self data) = [nby; nbx] ->
  0 < n ->
  (raises (mask_detector self data mask (PyInt n) None None None) = false
   <-> (class_ self <> Eiger2M \/ (481 < nbx)%nat))
  /\ ((nby < 256)%nat ->
      exists d m,
        Maxipix_mask_gaps data mask = Ok (d, m)
        /\ forall y x,
             get2 d y x
             = (if bool_decide (255 <= x < 261)%nat
                then (fun _ => zero) <$> get2 data y x else get2 data y x)
             /\ get2 m y x
                = (if bool_decide (255 <= x < 261)%nat
                   then (fun _ => one) <$> get2 mask y x else get2 mask y x)).
Proof.
  intros Hd Hm Hl Hn. split.
  - rewrite (mask_detector_no_corrections self data mask _ nby nbx Hd Hm Hl).
    rewrite <- (mask_gaps_raises (class_ self) (linearity_step self data) mask
                  nby nbx Hl Hm).
    destruct (_mask_gaps (class_ self) (linearity_step self data) mask)
      as [[d m]|e] eqn:Hrun; [|done].
    rewrite bind_Ok. simpl.
    destruct (mask_gaps_Ok_inv _ _ _ _ _ _ _ Hl Hm Hrun) as [-> ->].
    split; [done|]. intros _. by apply (saturation_returns _ _ _ _ nby nbx).
  - intros Hshort.
    destruct (mask_gaps_raises Maxipix data mask nby nbx Hd Hm) as [_ Hok].
    change (Maxipix_mask_gaps data mask) with (_mask_gaps Maxipix data mask).
    destruct (_mask_gaps Maxipix data mask) as [[d m]|e] eqn:Hrun.
    2:{ exfalso. assert (true = false) by (apply Hok; by left). done. }
    exists d, m. split; [done|]. intros y x.
    destruct (mask_gaps_get2 Maxipix data mask nby nbx d m y x Hd Hm Hrun)
      as [Hgd Hgm].
    rewrite Hgd, Hgm. change (mask_gaps Maxipix) with (data_gaps Maxipix).
    destruct (decide (y < nby /\ x < nbx)%nat) as [[Hy Hx]|Hout].
    + rewrite Maxipix_covers_short by done.
      case_bool_decide; [done|].
      by destruct (get2 data y x), (get2 mask y x).
    + unfold get2. rewrite Hd, Hm, !decide_False by done.
      by case_bool_decide.
Qed.

End Pipeline.

(** ** Concrete runs on integer frames *)

Lemma default_detector_created name :
  name ∈ ["Maxipix"; "Eiger2M"; "Eiger4M"; "Timepix"; "Merlin"; "Dummy"] ->
  create_detector name default_kwargs = Ok (default_detector name).
Proof.
  intros Hn.
  repeat (apply elem_of_cons in Hn as [-> | Hn]; [vm_compute; reflexivity|]).
  by apply elem_of_nil in Hn.
Qed.

Lemma Z_zero_one_apart : @zero_one_apart Z Z_Scalar.
Proof. intros v H0 H1. unfold s_eqb, zero, one, of_Z in *. simpl in *. lia. Qed.

(** With no linearity function the step hands [data] back. *)
Lemma linearity_step_None {V} `{Scalar V} (self : Detector V) data :
  _linearity_func self = None -> linearity_step self data = data.
Proof. intros Hn. unfold linearity_step. by rewrite Hn. Qed.

(** The method [_linearity_correction] does what the specification asks:
    a float array, obtained from the flattened data and reshaped. *)
Lemma linearity_correction_spec {V} `{Scalar V} (self : Detector V) f data nby nbx :
  _linearity_func self = Some f -> shape data = [nby; nbx] ->
  _linearity_correction self data
  = reshape2 (f (flatten (astype_float data))) nby nbx.
Proof.
  intros Hf Hs. unfold _linearity_correction, ndim. rewrite Hs, Hf. simpl.
  by rewrite Hs.
Qed.

(** C2 (the code departs from the claim). A Maxipix detector is configured
    with a linearity function that reports the number of dimensions of the
    array it is given.  On an integer 2 by 2 frame [mask_detector] returns
    an integer array of 2s: the function was handed the 2D integer array
    itself.  The method [_linearity_correction], which [mask_detector] does
    not call, returns the float array of 1s the claim describes. *)
Theorem C2_linearity_step_on_2D_data :
  exists self,
    create_detector "Maxipix" kwargs_probe = Ok self
    /\ linearity_step self frame_2x2
       = {| dtype := int64; shape := [2%nat; 2%nat]; buf := [2; 2; 2; 2] |}
    /\ mask_detector self frame_2x2 mask_2x2 (PyInt 1) None None None
       = Ok ({| dtype := int64; shape := [2%nat; 2%nat]; buf := [2; 2; 2; 2] |},
             mask_2x2)
    /\ _linearity_correction self frame_2x2
       = Ok {| dtype := float64; shape := [2%nat; 2%nat]; buf := [1; 1; 1; 1] |}.
Proof.
  eexists. split; [vm_compute; reflexivity|].
  repeat split; vm_compute; reflexivity.
Qed.

(** C10 (the claim as stated fails). An Eiger2M detector given a 2 by 2
    data/mask pair raises IndexError in gap masking: column 478 does not
    exist. *)
Lemma C10_counterexample :
  exists self,
    create_detector "Eiger2M" default_kwargs = Ok self
    /\ ndim frame_2x2 = 2%nat /\ shape frame_2x2 = shape mask_2x2
    /\ mask_detector self frame_2x2 mask_2x2 (PyInt 1) None None None
       = Raise (IndexError "index is out of bounds").
Proof.
  eexists. split; [vm_compute; reflexivity|].
  repeat split; vm_compute; reflexivity.
Qed.

(** ** The theorems at concrete inputs *)

(** C3 on a Maxipix detector: pixel (0, 1) holds 2000000 > 1e6 * 1. *)
Lemma C3_witness :
  exists d m,
    _saturation_correction (default_detector "Maxipix") frame_saturated mask_2x2
      (PyInt 1) = Ok (d, m)
    /\ get2 d 0 1 = Some 0 /\ get2 m 0 1 = Some 1
    /\ get2 d 0 0 = Some 1 /\ get2 m 0 0 = Some 0.
Proof.
  destruct (C3_saturation_correction (default_detector "Maxipix") frame_saturated
              mask_2x2 1000000 1 2 2)
    as (d & m & Hrun & _ & _ & Hpix & _).
  - vm_compute. reflexivity.
  - lia.
  - reflexivity.
  - reflexivity.
  - reflexivity.
  - exists d, m. split; [exact Hrun|].
    destruct (Hpix 0%nat 1%nat 2000000 0 eq_refl eq_refl) as [H1 H2].
    destruct (Hpix 0%nat 0%nat 1 0 eq_refl eq_refl) as [H3 H4].
    repeat split; assumption.
Defined.

(** C4 on a map holding a 2, and on a valid map marking pixel (0, 1). *)
Lemma C4_witness :
  is_ValueError (_hotpixels_correction frame_2x2 mask_2x2 (Some hotpixels_bad)) = true
  /\ exists d m,
       _hotpixels_correction frame_2x2 mask_2x2 (Some hotpixels_2x2) = Ok (d, m)
       /\ get2 d 0 1 = Some 0 /\ get2 m 0 1 = Some 1.
Proof.
  split.
  - destruct (C4_hotpixels_correction frame_2x2 mask_2x2 hotpixels_bad
                Z_zero_one_apart) as [Hbad _].
    apply Hbad. exists 2. split; [|split; reflexivity].
    apply list_elem_of_further, list_elem_of_here.
  - destruct (C4_hotpixels_correction frame_2x2 mask_2x2 hotpixels_2x2
                Z_zero_one_apart) as [_ Hgood].
    destruct Hgood as (d & m & Hrun & _ & _ & Hpix).
    + intros v Hv.
      repeat (apply elem_of_cons in Hv as [-> | Hv]; [reflexivity|]).
      by apply elem_of_nil in Hv.
    + reflexivity.
    + reflexivity.
    + reflexivity.
    + exists d, m. split; [exact Hrun|].
      exact (Hpix 0%nat 1%nat 1 2 0 eq_refl eq_refl eq_refl).
Defined.

(** C6 on a freshly made Maxipix detector: 516 by 516 pixels, no
    preprocessing binning. *)
Lemma C6_witness :
  exists s, roi_setter (default_detector "Maxipix") None = Ok s
            /\ roi s = [0; 516; 0; 516].
Proof.
  destruct (C6_roi_defaults (default_detector "Maxipix") None)
    as (n0 & n1 & b0 & b1 & b2 & Hn & Hb & _ & _ & (s & Hs & Hr) & _).
  - split; [vm_compute; reflexivity|]. split; [|vm_compute; reflexivity].
    change (_preprocessing_binning (default_detector "Maxipix")) with [1; 1; 1].
    intros b Hb. repeat (apply elem_of_cons in Hb as [-> | Hb]; [lia|]).
    by apply elem_of_nil in Hb.
  - by left.
  - injection Hn as <- <-. injection Hb as <- <- <-.
    exists s. split; [exact Hs | exact Hr].
Defined.

(** C7 on the name Pilatus. *)
Lemma C7_witness :
  @create_detector Z Z_Scalar "Pilatus" default_kwargs
  = Raise (NotImplementedError "No implementation for the Pilatus detector").
Proof.
  apply (C7_create_detector_unsupported "Pilatus" default_kwargs).
  intros Hin.
  repeat (apply elem_of_cons in Hin as [Heq | Hin]; [discriminate Heq|]).
  by apply elem_of_nil in Hin.
Defined.

(** C8 on a Maxipix run over a mask whose pixel (1, 0) is already 1. *)
Lemma C8_witness :
  exists d m,
    mask_detector (default_detector "Maxipix") frame_saturated mask_2x2 (PyInt 1)
      None None (Some hotpixels_2x2) = Ok (d, m)
    /\ get2 mask_2x2 1 0 = Some 1 /\ get2 m 1 0 = Some 1.
Proof.
  do 2 eexists. split; [vm_compute; reflexivity|]. split; [reflexivity|].
  refine (proj2 (C8_mask_monotone (default_detector "Maxipix") frame_saturated
                   mask_2x2 (PyInt 1) None None (Some hotpixels_2x2) _ _ _)
            1%nat 0%nat _).
  - vm_compute. reflexivity.
  - reflexivity.
Defined.

(** C9 on a freshly made Timepix detector: zero frames and one frame give
    the same result. *)
Lemma C9_witness :
  saturation_threshold (default_detector "Timepix") = None
  /\ mask_detector (default_detector "Timepix") frame_saturated mask_2x2 (PyInt 0)
       None None None
     = mask_detector (default_detector "Timepix") frame_saturated mask_2x2 (PyInt 1)
         None None None.
Proof.
  destruct (C9_nb_frames_unchecked_without_threshold "Timepix" default_kwargs
              (default_detector "Timepix")) as (Hnone & _ & Hsame & _).
  - by left.
  - vm_compute. reflexivity.
  - split; [exact Hnone | apply Hsame].
Defined.

(** C10 on 2 by 2 frames: a Maxipix detector accepts them, and the gap step
    leaves them as they are, no column of the band existing. *)
Lemma C10_witness :
  raises (mask_detector (default_detector "Maxipix") frame_2x2 mask_2x2 (PyInt 1)
            None None None) = false
  /\ exists d m, Maxipix_mask_gaps frame_2x2 mask_2x2 = Ok (d, m)
                 /\ get2 d 1 1 = Some 4 /\ get2 m 1 0 = Some 1.
Proof.
  destruct (C10_mask_detector_any_frame_shape (default_detector "Maxipix")
              frame_2x2 mask_2x2 1 2 2) as [Hret Hshort].
  - reflexivity.
  - reflexivity.
  - reflexivity.
  - lia.
  - split.
    + apply Hret. left. discriminate.
    + destruct Hshort as (d & m & Hrun & Hpix); [lia|].
      exists d, m. split; [exact Hrun|].
      destruct (Hpix 1%nat 1%nat) as [Hd _]. destruct (Hpix 1%nat 0%nat) as [_ Hm].
      split; [exact Hd | exact Hm].
Defined.

(* ===================================================================== *)
(** * Further properties of the module *)
(* ===================================================================== *)

(** ** Construction *)

Section Construction.
Context {V : Type} `{Scalar V}.
Implicit Types self s : Detector V.

(** The binning [Detector.__init__] installs: [kwargs.get(..) or (1, 1, 1)]. *)
Lemma Detector_init_explicit self kw s :
  Detector_init self kw = Ok s ->
  let pb := match kw_preprocessing_binning kw with
            | None | Some [] => [1; 1; 1]
            | Some b => b
            end in
  let s2 := with_binning
              (with_linearity_func
                 (with_offsets (with_preprocessing_binning self pb) (kw_offsets kw))
                 (kw_linearity_func kw))
              (kw_binning kw) in
  exists s3 s4,
    roi_setter s2 (kw_roi kw) = Ok s3
    /\ sum_roi_setter s3 (kw_sum_roi kw) = Ok s4
    /\ s = with_saturation_threshold
             (with_counter_table
                (with_specfile
                   (with_template_imagefile
                      (with_template_file
                         (with_sample_name
                            (with_savedir
                               (with_datadir (with_rootdir s4 (kw_rootdir kw))
                                  (kw_datadir kw))
                               (kw_savedir kw))
                            (kw_sample_name kw))
                         (kw_template_file kw))
                      (kw_template_imagefile kw))
                   (kw_specfile kw))
                [])
             None
    /\ length pb = 3%nat /\ (forall b, b ∈ pb -> 0 < b)
    /\ length (kw_binning kw) = 3%nat /\ (forall b, b ∈ kw_binning kw -> 0 < b).
Proof.
  unfold Detector_init.
  intros (s1 & H1 & H')%bind_Ok_inv. cbv zeta in H'.
  apply bind_Ok_inv in H' as (s2 & H2 & H').
  apply bind_Ok_inv in H' as (s3 & H3 & H').
  apply bind_Ok_inv in H' as (s4 & H4 & H').
  apply bind_Ok_inv in H' as (s5 & H5 & H').
  apply bind_Ok_inv in H' as (s6 & H6 & H').
  apply bind_Ok_inv in H' as (s7 & H7 & H').
  apply bind_Ok_inv in H' as (s8 & H8 & H').
  apply bind_Ok_inv in H' as (s9 & H9 & H').
  apply bind_Ok_inv in H' as (s10 & H10 & H').
  apply bind_Ok_inv in H' as (s11 & H11 & H').
  injection H' as <-. injection H11 as <-.
  apply str_setter_inv in H5, H6, H7, H8, H9, H10. subst s10 s9 s8 s7 s6 s5.
  apply preprocessing_binning_setter_inv in H1 as (-> & Hl & Hpos).
  unfold binning_setter in H2.
  apply bind_Ok_inv in H2 as ([] & Hb & [= <-]).
  apply valid_container_int_Ok in Hb as [Hbl Hbpos].
  exists s3, s4. repeat split; try done.
Qed.

Lemma roi_setter_default self value :
  value = None \/ value = Some [] ->
  forall s, roi_setter self value = Ok s ->
  exists ny nx, nb_pixel_y self = Ok ny /\ nb_pixel_x self = Ok nx
                /\ s = with_roi self [0; ny; 0; nx].
Proof.
  intros Hv s. unfold roi_setter.
  intros (r & Hr & ([] & _ & [= <-])%bind_Ok_inv)%bind_Ok_inv.
  assert (Hr' : (ny ← nb_pixel_y self; nx ← nb_pixel_x self; Ok [0; ny; 0; nx]) = Ok r)
    by (by destruct Hv as [-> | ->]).
  apply bind_Ok_inv in Hr' as (ny & Hy & Hr').
  apply bind_Ok_inv in Hr' as (nx & Hx & [= <-]).
  by exists ny, nx.
Qed.

Lemma sum_roi_setter_default self value r0 rs :
  value = None \/ value = Some [] -> roi self = r0 :: rs ->
  forall s, sum_roi_setter self value = Ok s -> s = with_sum_roi self (r0 :: rs).
Proof.
  intros Hv Hroi s. unfold sum_roi_setter. rewrite Hroi.
  intros (r & Hr & ([] & _ & [= <-])%bind_Ok_inv)%bind_Ok_inv.
  destruct Hv as [-> | ->]; by injection Hr as <-.
Qed.

(** What construction leaves in a detector without an explicit [roi]. *)
Lemma Detector_init_default_roi self kw s :
  Detector_init self kw = Ok s ->
  kw_roi kw = None \/ kw_roi kw = Some [] ->
  exists ny nx,
    nb_pixel_y s = Ok ny /\ nb_pixel_x s = Ok nx
    /\ roi s = [0; ny; 0; nx]
    /\ (kw_sum_roi kw = None \/ kw_sum_roi kw = Some [] -> sum_roi s = roi s).
Proof.
  intros Hi Hroi.
  apply Detector_init_explicit in Hi as (s3 & s4 & H3 & H4 & -> & _).
  apply (roi_setter_default _ _ Hroi) in H3 as (ny & nx & Hy & Hx & ->).
  exists ny, nx. apply sum_roi_setter_inv in H4 as Hr4.
  destruct Hr4 as (r4 & Hs4 & _).
  split; [|split; [|split]].
  - by rewrite Hs4.
  - by rewrite Hs4.
  - by rewrite Hs4.
  - intros Hsum.
    eapply sum_roi_setter_default in H4; [|exact Hsum|reflexivity].
    by rewrite H4.
Qed.

End Construction.

Section Factory.
Context {V : Type} `{Scalar V}.
Implicit Types self s : Detector V.

Lemma valid_container_int_allow_none o len lo name :
  valid_container_int o len (Some lo) true name = Ok () ->
  forall l, o = Some l -> length l = len /\ forall z, z ∈ l -> lo < z.
Proof.
  intros Hv l ->. unfold valid_container_int in Hv.
  destruct (bool_decide (length l = len)
            && forallb (fun z => from_option (fun m => m <? z) true (Some lo)) l)
    eqn:Hb; [|done].
  apply andb_prop in Hb as [Hlen Hall].
  apply bool_decide_eq_true in Hlen. split; [done|].
  intros z Hz%list_elem_of_In. rewrite forallb_forall in Hall.
  specialize (Hall z Hz). simpl in Hall. lia.
Qed.

(** The six constructors seen from the factory: [Detector.__init__] run on an
    object of the class named, then the class's own assignments. *)
Lemma create_detector_cases name kw s :
  create_detector name kw = Ok s ->
  exists c self0 s0,
    Detector_init self0 kw = Ok s0
    /\ class_ self0 = c /\ _name self0 = name /\ name = class_name c
    /\ (c <> Dummy -> custom_pixelnumber self0 = None)
    /\ (forall l, custom_pixelnumber self0 = Some l ->
         length l = 2%nat /\ forall z, z ∈ l -> 0 < z)
    /\ s = with_saturation_threshold
             (with_counter_table s0 (class_counter_table c)) (class_threshold c).
Proof.
  unfold create_detector.
  repeat case_decide; subst; try done.
  - unfold Maxipix_init. intros (s0 & Hi & [= <-])%bind_Ok_inv.
    by exists Maxipix, (new_object Maxipix "Maxipix"), s0.
  - unfold Eiger2M_init. intros (s0 & Hi & [= <-])%bind_Ok_inv.
    by exists Eiger2M, (new_object Eiger2M "Eiger2M"), s0.
  - unfold Eiger4M_init. intros (s0 & Hi & [= <-])%bind_Ok_inv.
    exists Eiger4M, (new_object Eiger4M "Eiger4M"), s0.
    repeat split; try done.
    apply Detector_init_explicit in Hi as (s3 & s4 & _ & _ & -> & _). by destruct s4.
  - unfold Timepix_init. intros Hi.
    exists Timepix, (new_object Timepix "Timepix"), s.
    repeat split; try done.
    apply Detector_init_explicit in Hi as (s3 & s4 & _ & _ & -> & _). by destruct s4.
  - unfold Merlin_init. intros (s0 & Hi & [= <-])%bind_Ok_inv.
    exists Merlin, (new_object Merlin "Merlin"), s0.
    repeat split; try done.
    apply Detector_init_explicit in Hi as (s3 & s4 & _ & _ & -> & _). by destruct s4.
  - unfold Dummy_init. cbv zeta.
    intros ([] & _ & ([] & Hcp & Hi)%bind_Ok_inv)%bind_Ok_inv.
    simpl in Hcp. eexists Dummy, _, s. split; [exact Hi|].
    split; [done|]. split; [done|]. split; [done|]. split; [done|]. split.
    + intros l Hl. simpl in Hl.
      apply (valid_container_int_allow_none _ _ _ _ Hcp l Hl).
    + apply Detector_init_explicit in Hi as (s3 & s4 & _ & _ & -> & _). by destruct s4.
Qed.

End Factory.

Section FactoryTheorems.
Context {V : Type} `{Scalar V}.
Implicit Types self s : Detector V.

Lemma unbinned_pixel_number_ext s s' :
  class_ s = class_ s' -> custom_pixelnumber s = custom_pixelnumber s' ->
  unbinned_pixel_number s = unbinned_pixel_number s'.
Proof. intros Hc Hp. unfold unbinned_pixel_number. by rewrite Hc, Hp. Qed.

(** X1. A detector returned by the factory is of the class named: it stores
    the name, the keyword arguments given for the binning and the linearity
    function, and the saturation threshold of its class (1e6 for Maxipix,
    Eiger2M and Merlin, 4e9 for Eiger4M, none for Timepix and Dummy). *)
Theorem X1_create_detector_class name kw s :
  create_detector name kw = Ok s ->
  name = class_name (class_ s)
  /\ _name s = name
  /\ saturation_threshold s = class_threshold (class_ s)
  /\ _binning s = kw_binning kw
  /\ _linearity_func s = kw_linearity_func kw.
Proof.
  intros (c & self0 & s0 & Hi & Hc & Hn & Hname & _ & _ & ->)%create_detector_cases.
  apply Detector_init_explicit in Hi as (s3 & s4 & H3 & H4 & -> & _).
  apply sum_roi_setter_inv in H4 as (r4 & -> & _).
  apply roi_setter_inv in H3 as (r3 & -> & _).
  simpl. rewrite Hc. done.
Qed.

(** X2. [counter] of a detector returned by the factory: only Maxipix and
    Eiger2M know a counter, and only at beamline ID01; any other beamline
    and any other class give [None]. *)
Theorem X2_counter name kw s beamline :
  create_detector name kw = Ok s ->
  counter s beamline
  = if decide (beamline = "ID01")
    then match class_ s with
         | Maxipix => Some "mpx4inr"
         | Eiger2M => Some "ei2minr"
         | _ => None
         end
    else None.
Proof.
  intros (c & self0 & s0 & Hi & Hc & Hn & Hname & _ & _ & ->)%create_detector_cases.
  apply Detector_init_explicit in Hi as (s3 & s4 & H3 & H4 & -> & _).
  apply sum_roi_setter_inv in H4 as (r4 & -> & _).
  apply roi_setter_inv in H3 as (r3 & -> & _).
  unfold counter. simpl. rewrite Hc.
  destruct c; simpl; repeat case_decide; congruence.
Qed.

(** X3. On a detector returned by the factory the pixel numbers never
    raise: [nb_pixel_y] and [nb_pixel_x] are the unbinned numbers
    floor-divided by the second and third preprocessing-binning factors,
    which are positive; both are non-negative and within one binning factor
    of the unbinned numbers.  [roi] and [sum_roi] hold four integers. *)
Theorem X3_constructed_pixel_numbers name kw s :
  create_detector name kw = Ok s ->
  exists n0 n1 b0 b1 b2,
    unbinned_pixel_number s = [n0; n1]
    /\ _preprocessing_binning s = [b0; b1; b2]
    /\ (0 < n0 /\ 0 < n1) /\ (0 < b0 /\ 0 < b1 /\ 0 < b2)
    /\ nb_pixel_y s = Ok (n0 / b1) /\ nb_pixel_x s = Ok (n1 / b2)
    /\ (0 <= n0 / b1 /\ n0 / b1 * b1 <= n0 < (n0 / b1 + 1) * b1)
    /\ (0 <= n1 / b2 /\ n1 / b2 * b2 <= n1 < (n1 / b2 + 1) * b2)
    /\ length (roi s) = 4%nat /\ length (sum_roi s) = 4%nat.
Proof.
  intros (c & self0 & s0 & Hi & Hc & Hn & Hname & Hnone & Hcpn & ->)%create_detector_cases.
  apply Detector_init_explicit in Hi as (s3 & s4 & H3 & H4 & -> & Hl & Hpos & _).
  apply sum_roi_setter_inv in H4 as (r4 & -> & Hr4).
  apply roi_setter_inv in H3 as (r3 & -> & Hr3).
  match goal with |- context [unbinned_pixel_number ?t] => set (sf := t) end.
  assert (Hu0 : unbinned_pixel_number sf = unbinned_pixel_number self0)
    by (apply unbinned_pixel_number_ext; reflexivity).
  assert (Hpb : _preprocessing_binning sf
                = match kw_preprocessing_binning kw with
                  | None | Some [] => [1; 1; 1]
                  | Some b => b
                  end) by reflexivity.
  assert (Hroi : length (roi sf) = 4%nat) by exact Hr3.
  assert (Hsum : length (sum_roi sf) = 4%nat) by exact Hr4.
  clearbody sf. rewrite <- Hpb in Hl, Hpos. clear Hpb.
  assert (Hu : exists n0 n1, unbinned_pixel_number self0 = [n0; n1] /\ 0 < n0 /\ 0 < n1).
  { unfold unbinned_pixel_number. rewrite Hc.
    destruct c; try (do 2 eexists; split; [reflexivity|lia]).
    destruct (custom_pixelnumber self0) as [l|] eqn:Hl0.
    - destruct (Hcpn l eq_refl) as [Hlen Hp].
      destruct l as [|n0 [|n1 [|? ?]]]; try done.
      exists n0, n1. split; [done|]. split; apply Hp.
      + apply list_elem_of_here.
      + apply list_elem_of_further, list_elem_of_here.
    - do 2 eexists; split; [reflexivity|lia]. }
  destruct Hu as (n0 & n1 & Hu & Hn0 & Hn1). rewrite <- Hu0 in Hu.
  destruct (_preprocessing_binning sf) as [|b0 [|b1 [|b2 [|? ?]]]] eqn:Hpb; try done.
  assert (0 < b0 /\ 0 < b1 /\ 0 < b2) as (Hb0 & Hb1 & Hb2).
  { repeat split; apply Hpos.
    - apply list_elem_of_here.
    - apply list_elem_of_further, list_elem_of_here.
    - do 2 apply list_elem_of_further. apply list_elem_of_here. }
  exists n0, n1, b0, b1, b2.
  split; [done|]. split; [done|]. split; [done|]. split; [done|].
  split.
  { unfold nb_pixel_y. rewrite Hu, Hpb. simpl. unfold floordiv.
    by replace (b1 =? 0) with false by lia. }
  split.
  { unfold nb_pixel_x. rewrite Hu, Hpb. simpl. unfold floordiv.
    by replace (b2 =? 0) with false by lia. }
  split.
  { pose proof (Z.div_pos n0 b1). pose proof (Z.mul_div_le n0 b1).
    pose proof (Z.mul_succ_div_gt n0 b1). nia. }
  split.
  { pose proof (Z.div_pos n1 b2). pose proof (Z.mul_div_le n1 b2).
    pose proof (Z.mul_succ_div_gt n1 b2). nia. }
  done.
Qed.

(** X4. Constructing a detector with [roi] left out (or empty) stores the
    full frame [[0, nb_pixel_y, 0, nb_pixel_x]], computed with the
    preprocessing binning given to the constructor; with [sum_roi] left out
    too, [sum_roi] is that same [roi]. *)
Theorem X4_constructed_default_roi name kw s :
  create_detector name kw = Ok s ->
  kw_roi kw = None \/ kw_roi kw = Some [] ->
  exists ny nx,
    nb_pixel_y s = Ok ny /\ nb_pixel_x s = Ok nx
    /\ roi s = [0; ny; 0; nx]
    /\ (kw_sum_roi kw = None \/ kw_sum_roi kw = Some [] -> sum_roi s = roi s).
Proof.
  intros (c & self0 & s0 & Hi & Hc & Hn & Hname & _ & _ & ->)%create_detector_cases Hroi.
  destruct (Detector_init_default_roi _ _ _ Hi Hroi) as (ny & nx & Hy & Hx & Hr & Hs).
  exists ny, nx. by destruct s0.
Qed.

End FactoryTheorems.

(** ** The elementwise corrections *)

Section Elementwise.
Context {V : Type} `{Scalar V}.
Implicit Types a b data mask d m hp : ndarray V.

Lemma get2_zip_with (f : V -> V -> V) a b dt y x u v :
  shape a = shape b ->
  get2 a y x = Some u -> get2 b y x = Some v ->
  get2 {| dtype := dt; shape := shape a; buf := zip_with f (buf a) (buf b) |} y x
  = Some (f u v).
Proof.
  intros Hs Hu Hv.
  apply get2_lt in Hu as (nby & nbx & Ha & Hy & Hx & Hu).
  apply get2_lt in Hv as (? & ? & Hb & _ & _ & Hv).
  rewrite <- Hs, Ha in Hb. simplify_eq.
  unfold get2. simpl. rewrite Ha, decide_True by done.
  by rewrite lookup_zip_with, Hu, Hv.
Qed.

(** X5. Flatfield correction of a 2D frame: without a flatfield the frame
    comes back as it is; a flatfield of another shape raises ValueError; one
    of the same shape gives a frame of that shape whose pixels are
    [flatfield * data], elementwise.  A frame that is not 2D raises
    ValueError whatever the flatfield. *)
Theorem X5_flatfield_correction data :
  (ndim data <> 2%nat ->
   forall flatfield,
     _flatfield_correction data flatfield
     = Raise (ValueError "data should be a 2D array"))
  /\ (ndim data = 2%nat ->
      _flatfield_correction data None = Ok data
      /\ forall flatfield,
           (shape flatfield <> shape data ->
            _flatfield_correction data (Some flatfield)
            = Raise (ValueError "flatfield and data must have the same shape"))
           /\ (shape flatfield = shape data ->
               exists d,
                 _flatfield_correction data (Some flatfield) = Ok d
                 /\ shape d = shape data
                 /\ dtype d = result_type (dtype flatfield) (dtype data)
                 /\ forall y x f v,
                      get2 flatfield y x = Some f -> get2 data y x = Some v ->
                      get2 d y x = Some (s_mul f v))).
Proof.
  unfold _flatfield_correction. split.
  - intros Hnd ff. by rewrite decide_True.
  - intros Hnd. split; [by rewrite decide_False by (intros ?; done)|].
    intros ff. rewrite decide_False by (intros ?; done). split.
    + intros Hs. by rewrite decide_True.
    + intros Hs. rewrite decide_False by (intros ?; done).
      eexists. split; [reflexivity|]. split; [done|]. split; [done|].
      intros y x f v Hf Hv. by apply get2_zip_with.
Qed.

(** X6. Background subtraction of a 2D frame: without a background the
    frame comes back as it is; a background of another shape raises
    ValueError; one of the same shape gives a frame of that shape whose
    pixels are [data - background], elementwise.  A frame that is not 2D
    raises ValueError whatever the background. *)
Theorem X6_background_subtraction data :
  (ndim data <> 2%nat ->
   forall background,
     _background_subtraction data background
     = Raise (ValueError "data should be a 2D array"))
  /\ (ndim data = 2%nat ->
      _background_subtraction data None = Ok data
      /\ forall background,
           (shape background <> shape data ->
            _background_subtraction data (Some background)
            = Raise (ValueError "background and data must have the same shape"))
           /\ (shape background = shape data ->
               exists d,
                 _background_subtraction data (Some background) = Ok d
                 /\ shape d = shape data
                 /\ dtype d = result_type (dtype data) (dtype background)
                 /\ forall y x v g,
                      get2 data y x = Some v -> get2 background y x = Some g ->
                      get2 d y x = Some (s_sub v g))).
Proof.
  unfold _background_subtraction. split.
  - intros Hnd bg. by rewrite decide_True.
  - intros Hnd. split; [by rewrite decide_False by (intros ?; done)|].
    intros bg. rewrite decide_False by (intros ?; done). split.
    + intros Hs. by rewrite decide_True.
    + intros Hs. rewrite decide_False by (intros ?; done).
      eexists. split; [reflexivity|]. split; [done|]. split; [done|].
      intros y x v g Hv Hg. by apply get2_zip_with.
Qed.

(** X7. The hot-pixel step compares only the number of dimensions of
    [mask] and [data].  A 2D mask of another shape than a 2D [data] passes
    that test: without [hotpixels] the step returns both arrays untouched,
    and with a valid [hotpixels] of [data]'s shape the assignment into the
    mask raises IndexError, not the ValueError of the shape test. *)
Theorem X7_hotpixels_mask_of_other_shape data mask nby nbx my mx :
  shape data = [nby; nbx] -> shape mask = [my; mx] ->
  [my; mx] <> [nby; nbx] ->
  _hotpixels_correction data mask None = Ok (data, mask)
  /\ forall hp,
       zero_one_apart ->
       shape hp = shape data ->
       (forall v, v ∈ buf hp -> s_eqb v zero || s_eqb v one = true) ->
       _hotpixels_correction data mask (Some hp)
       = Raise (IndexError "boolean index did not match indexed array").
Proof.
  intros Hd Hm Hne. unfold _hotpixels_correction.
  rewrite (check_data_mask_2d _ _ _ _ _ _ Hd Hm), bind_Ok. split; [done|].
  intros hp Hap Hhp Hall.
  rewrite decide_False by (intros ?; done).
  rewrite decide_False.
  2:{ intros Hn. apply Hn. unfold eq_scalar, size.
      exact (proj2 (count_01_eq (buf hp) Hap) Hall). }
  rewrite (setitem_bool_Ok data) by done. rewrite bind_Ok.
  unfold setitem_bool. rewrite decide_False; [done|]. congruence.
Qed.

(** X8. [_linearity_correction] on a frame that is not 2D raises
    ValueError.  On an [nby] by [nbx] frame without a linearity function it
    returns the frame converted to float.  With a function, the function is
    given the flattened float frame; if it gives back [nby * nbx] elements
    the result is those elements in the frame's shape, otherwise the
    reshape raises ValueError. *)
Theorem X8_linearity_correction self data :
  (ndim data <> 2%nat ->
   _linearity_correction self data = Raise (ValueError "data should be a 2D array"))
  /\ (forall nby nbx,
        shape data = [nby; nbx] ->
        (_linearity_func self = None ->
         _linearity_correction self data = Ok (astype_float data))
        /\ (forall f,
              _linearity_func self = Some f ->
              let out := f (flatten (astype_float data)) in
              (size out = (nby * nbx)%nat ->
               exists r, _linearity_correction self data = Ok r
                         /\ shape r = [nby; nbx] /\ buf r = buf out
                         /\ dtype r = dtype out)
              /\ (size out <> (nby * nbx)%nat ->
                  _linearity_correction self data
                  = Raise (ValueError "cannot reshape array")))).
Proof.
  unfold _linearity_correction. split.
  - intros Hnd. by rewrite decide_True.
  - intros nby nbx Hs.
    assert (Hnd : ndim data = 2%nat) by (unfold ndim; by rewrite Hs).
    rewrite decide_False by (intros ?; done). simpl shape. rewrite Hs. split.
    + by intros ->.
    + intros f ->. cbv zeta. unfold reshape2. split.
      * intros Hsz. rewrite decide_True by done. eexists. by split.
      * intros Hsz. by rewrite decide_False.
Qed.

End Elementwise.

(** ** Gap geometry *)

Section GapGeometry.
Context {V : Type} `{Scalar V}.
Implicit Types a data mask d m : ndarray V.

Lemma mask_gaps_returns c data mask nby nbx :
  shape data = [nby; nbx] -> shape mask = [nby; nbx] ->
  c <> Eiger2M \/ (481 < nbx)%nat ->
  exists d m, _mask_gaps c data mask = Ok (d, m).
Proof.
  intros Hd Hm Hc.
  destruct (mask_gaps_raises c data mask nby nbx Hd Hm) as [_ Hok].
  destruct (_mask_gaps c data mask) as [[d m]|e]; [eauto|].
  specialize (Hok Hc). done.
Qed.

Lemma cross_band_covers c (hi : nat) nby nbx y x :
  (c = Maxipix /\ hi = 261%nat) \/ (c = Merlin /\ hi = 260%nat) ->
  (y < nby)%nat -> (x < nbx)%nat ->
  covers_yx (data_gaps c) nby nbx y x
  = bool_decide ((255 <= y < hi)%nat \/ (255 <= x < hi)%nat).
Proof.
  intros Hc Hy Hx.
  destruct Hc as [[-> ->] | [-> ->]]; unfold covers_yx, data_gaps, existsb;
    rewrite !selects_in_frame by lia;
    unfold rng, all, from_option, literal;
    change (255 <? 0) with false; change (261 <? 0) with false;
    change (260 <? 0) with false; cbv iota;
    case_bool_decide; lia.
Qed.

(** X9. On a 2D data/mask pair of one shape, of any size, the gap step of
    Maxipix (Merlin) returns, writes 0 into data and 1 into mask at the
    pixels of rows 255 to 260 (259) and of columns 255 to 260 (259), and
    leaves every other pixel of both arrays as it was. *)
Theorem X9_cross_band c (hi : nat) data mask nby nbx :
  (c = Maxipix /\ hi = 261%nat) \/ (c = Merlin /\ hi = 260%nat) ->
  shape data = [nby; nbx] -> shape mask = [nby; nbx] ->
  exists d m,
    _mask_gaps c data mask = Ok (d, m)
    /\ forall y x v w,
         get2 data y x = Some v -> get2 mask y x = Some w ->
         let band := bool_decide ((255 <= y < hi)%nat \/ (255 <= x < hi)%nat) in
         get2 d y x = Some (if band then zero else v)
         /\ get2 m y x = Some (if band then one else w).
Proof.
  intros Hc Hd Hm.
  destruct (mask_gaps_returns c data mask nby nbx Hd Hm) as (d & m & Hrun).
  { left. destruct Hc as [[-> _] | [-> _]]; done. }
  exists d, m. split; [done|]. intros y x v w Hv Hw.
  destruct (mask_gaps_get2 c data mask nby nbx d m y x Hd Hm Hrun) as [Hgd Hgm].
  rewrite Hgd, Hgm, Hv, Hw.
  assert (Hmg : mask_gaps c = data_gaps c)
    by (destruct Hc as [[-> _] | [-> _]]; done).
  rewrite Hmg.
  apply get2_lt in Hv as (? & ? & Hd' & Hy & Hx & _).
  rewrite Hd in Hd'. simplify_eq.
  by rewrite (cross_band_covers c hi) by done.
Qed.

Lemma Eiger4M_border_covers nby nbx y x :
  (y < nby)%nat -> (x < nbx)%nat ->
  (y = 0 \/ y = nby - 1 \/ x = 0 \/ x = nbx - 1)%nat ->
  covers_yx (data_gaps Eiger4M) nby nbx y x = true.
Proof.
  intros Hy Hx Hb. unfold covers_yx, data_gaps, existsb.
  rewrite !selects_in_frame by lia.
  unfold rng, all, from, from_option, literal.
  change (0 <? 0) with false. change (1 <? 0) with false.
  change (-1 <? 0) with true. cbv iota.
  lia.
Qed.

(** X10. On a 2D data/mask pair of one shape, of any size, the Eiger4M gap
    step returns and every pixel of the first and last row and of the first
    and last column is 0 in data and 1 in mask: the slices [-1:] follow the
    frame, whatever its size. *)
Theorem X10_Eiger4M_border data mask nby nbx :
  shape data = [nby; nbx] -> shape mask = [nby; nbx] ->
  exists d m,
    Eiger4M_mask_gaps data mask = Ok (d, m)
    /\ forall y x v w,
         get2 data y x = Some v -> get2 mask y x = Some w ->
         (y = 0 \/ y = nby - 1 \/ x = 0 \/ x = nbx - 1)%nat ->
         get2 d y x = Some zero /\ get2 m y x = Some one.
Proof.
  intros Hd Hm.
  destruct (mask_gaps_returns Eiger4M data mask nby nbx Hd Hm) as (d & m & Hrun);
    [by left|].
  exists d, m. split; [exact Hrun|]. intros y x v w Hv Hw Hb.
  destruct (mask_gaps_get2 Eiger4M data mask nby nbx d m y x Hd Hm Hrun) as [Hgd Hgm].
  rewrite Hgd, Hgm, Hv, Hw. change (mask_gaps Eiger4M) with (data_gaps Eiger4M).
  apply get2_lt in Hv as (? & ? & Hd' & Hy & Hx & _).
  rewrite Hd in Hd'. simplify_eq.
  by rewrite Eiger4M_border_covers.
Qed.

(** X11. For every class but Eiger2M, the gap step treats data and mask
    alike on a 2D pair of one shape: each pixel is either left as it was in
    both arrays, or set to 0 in data and to 1 in mask. *)
Theorem X11_gaps_paired c data mask nby nbx d m :
  c <> Eiger2M ->
  shape data = [nby; nbx] -> shape mask = [nby; nbx] ->
  _mask_gaps c data mask = Ok (d, m) ->
  forall y x v w,
    get2 data y x = Some v -> get2 mask y x = Some w ->
    (get2 d y x = Some v /\ get2 m y x = Some w)
    \/ (get2 d y x = Some zero /\ get2 m y x = Some one).
Proof.
  intros Hc Hd Hm Hrun y x v w Hv Hw.
  destruct (mask_gaps_get2 c data mask nby nbx d m y x Hd Hm Hrun) as [Hgd Hgm].
  rewrite Hgd, Hgm, Hv, Hw, (gaps_tables_agree c Hc). simpl.
  destruct (covers_yx (data_gaps c) nby nbx y x); eauto.
Qed.

(** X12. For every class, the gap step raises ValueError exactly when
    [data] is not 2D or [mask] has another number of dimensions; the shapes
    themselves are not compared. *)
Theorem X12_gaps_ValueError c data mask :
  is_ValueError (_mask_gaps c data mask) = true
  <-> ~ (ndim data = 2%nat /\ ndim mask = 2%nat).
Proof.
  destruct (check_data_mask data mask) as [[]|e] eqn:Hck.
  - apply check_data_mask_Ok in Hck as (nby & nbx & my & mx & Hd & Hm).
    rewrite (mask_gaps_2d c data mask nby nbx my mx Hd Hm).
    unfold ndim. rewrite Hd, Hm.
    destruct (_ && _); simpl; split; try done; intros Hn; by destruct Hn.
  - rewrite mask_gaps_table, Hck. simpl.
    unfold check_data_mask in Hck. repeat case_decide; simplify_eq; simpl.
    + split; [|done]. intros _ [? ?]. done.
    + split; [|done]. intros _ [? ?]. congruence.
Qed.

End GapGeometry.

(** ** Data and mask move together *)

Section PairedUpdates.
Context {V : Type} `{Scalar V}.
Implicit Types self : Detector V.
Implicit Types a data mask d m hp : ndarray V.

Lemma paired_update_refl d m : paired_update d m d m.
Proof.
  split; [done|]. split; [done|]. exists (fun _ => false).
  by rewrite !imap_id.
Qed.

Lemma paired_update_trans d1 m1 d2 m2 d3 m3 :
  paired_update d1 m1 d2 m2 -> paired_update d2 m2 d3 m3 ->
  paired_update d1 m1 d3 m3.
Proof.
  intros (Hd1 & Hm1 & sel1 & Hbd1 & Hbm1) (Hd2 & Hm2 & sel2 & Hbd2 & Hbm2).
  split; [congruence|]. split; [congruence|].
  exists (fun i => sel1 i || sel2 i).
  rewrite Hbd2, Hbm2, Hbd1, Hbm1, !imap_imap. split.
  - apply imap_ext. intros i v _. simpl. by destruct (sel1 i), (sel2 i).
  - apply imap_ext. intros i v _. simpl. by destruct (sel1 i), (sel2 i).
Qed.

Lemma paired_update_with_buf d m (sel : nat -> bool) :
  paired_update d m
    (with_buf d (imap (fun i v => if sel i then zero else v) (buf d)))
    (with_buf m (imap (fun i w => if sel i then one else w) (buf m))).
Proof. split; [done|]. split; [done|]. by exists sel. Qed.

(** Pixel by pixel: left alone in both arrays, or 0 and 1. *)
Lemma paired_update_get2 d m d' m' y x v w :
  paired_update d m d' m' -> shape m = shape d ->
  get2 d y x = Some v -> get2 m y x = Some w ->
  (get2 d' y x = Some v /\ get2 m' y x = Some w)
  \/ (get2 d' y x = Some zero /\ get2 m' y x = Some one).
Proof.
  intros (Hd & Hm & sel & Hbd & Hbm) Hs Hv Hw.
  apply get2_lt in Hv as (nby & nbx & Hsd & Hy & Hx & Hv).
  apply get2_lt in Hw as (nby' & nbx' & Hsm & _ & _ & Hw).
  rewrite Hs, Hsd in Hsm. injection Hsm as <- <-.
  unfold get2. rewrite Hd, Hm, Hs, Hsd, !decide_True by done.
  rewrite Hbd, Hbm, !list_lookup_imap, Hv, Hw. simpl.
  destruct (sel (y * nbx + x)%nat); [right | left]; done.
Qed.

Lemma hotpixels_paired data mask hotpixels d m :
  _hotpixels_correction data mask hotpixels = Ok (d, m) ->
  paired_update data mask d m.
Proof.
  unfold _hotpixels_correction.
  destruct (check_data_mask data mask) as [[]|]; [|done]. rewrite bind_Ok.
  destruct hotpixels as [hp|].
  - do 2 (case_decide; [done|]).
    destruct (setitem_bool data _ _ _) as [d'|] eqn:Hd; [|done]. rewrite bind_Ok.
    destruct (setitem_bool mask _ _ _) as [m'|] eqn:Hm; [|done]. rewrite bind_Ok.
    intros [= <- <-].
    apply setitem_bool_inv in Hd as ->. apply setitem_bool_inv in Hm as ->.
    apply (paired_update_with_buf data mask
             (fun i => default false (eq_scalar hp 1 !! i))).
  - intros [= <- <-]. apply paired_update_refl.
Qed.

Lemma gaps_paired c data mask d m :
  c <> Eiger2M -> shape mask = shape data ->
  _mask_gaps c data mask = Ok (d, m) -> paired_update data mask d m.
Proof.
  intros Hc Hs Hrun.
  destruct (check_data_mask data mask) as [[]|e] eqn:Hck.
  - apply check_data_mask_Ok in Hck as (nby & nbx & my & mx & Hd & Hm).
    rewrite Hs, Hd in Hm. injection Hm as <- <-. rewrite Hd in Hs.
    destruct (mask_gaps_Ok_inv c data mask nby nbx d m Hd Hs Hrun) as [-> ->].
    rewrite (gaps_tables_agree c Hc).
    apply (paired_update_with_buf data mask (covers (data_gaps c) nby nbx)).
  - rewrite mask_gaps_table, Hck in Hrun. done.
Qed.

Lemma saturation_paired self data mask nb d m :
  _saturation_correction self data mask nb = Ok (d, m) ->
  paired_update data mask d m.
Proof.
  unfold _saturation_correction.
  destruct (saturation_threshold self) as [thr|].
  - destruct (check_data_mask data mask) as [[]|]; [|done]. rewrite bind_Ok.
    destruct (valid_item_int nb 0 "nb_frames") as [n|]; [|done]. rewrite bind_Ok.
    destruct (setitem_bool mask _ _ _) as [m'|] eqn:Hm; [|done]. rewrite bind_Ok.
    destruct (setitem_bool data _ _ _) as [d'|] eqn:Hd; [|done]. rewrite bind_Ok.
    intros [= <- <-].
    apply setitem_bool_inv in Hd as ->. apply setitem_bool_inv in Hm as ->.
    apply (paired_update_with_buf data mask
             (fun i => default false (gt_scalar data (s_mul thr (of_Z n)) !! i))).
  - intros [= <- <-]. apply paired_update_refl.
Qed.

Lemma flatfield_shape data ff d :
  _flatfield_correction data ff = Ok d -> shape d = shape data /\ ndim data = 2%nat.
Proof.
  unfold _flatfield_correction. case_decide as Hnd; [done|].
  assert (ndim data = 2%nat) by (destruct (decide (ndim data = 2%nat)); done).
  destruct ff as [ff|].
  - case_decide as Hs; [done|]. intros [= <-]. split; [|done]. simpl.
    destruct (decide (shape ff = shape data)); done.
  - by intros [= <-].
Qed.

Lemma background_shape data bg d :
  _background_subtraction data bg = Ok d -> shape d = shape data.
Proof.
  unfold _background_subtraction. case_decide as Hnd; [done|].
  destruct bg as [bg|].
  - case_decide as Hs; [done|]. by intros [= <-].
  - by intros [= <-].
Qed.

(** The run of [mask_detector] split at the point where the mask comes in. *)
Lemma mask_detector_inv self data mask nb ff bg hotpixels d m :
  mask_detector self data mask nb ff bg hotpixels = Ok (d, m) ->
  ndim data = 2%nat /\ shape data = shape mask
  /\ exists d1 d2 d3 m3 d4 m4,
       _flatfield_correction (linearity_step self data) ff = Ok d1
       /\ _background_subtraction d1 bg = Ok d2
       /\ _hotpixels_correction d2 mask hotpixels = Ok (d3, m3)
       /\ _mask_gaps (class_ self) d3 m3 = Ok (d4, m4)
       /\ _saturation_correction self d4 m4 nb = Ok (d, m).
Proof.
  unfold mask_detector. case_decide as Hnd; [done|]. case_decide as Hs; [done|].
  cbv zeta.
  destruct (_flatfield_correction _ ff) as [d1|] eqn:H1; [|done]. rewrite bind_Ok.
  destruct (_background_subtraction d1 bg) as [d2|] eqn:H2; [|done]. rewrite bind_Ok.
  destruct (_hotpixels_correction d2 mask hotpixels) as [[d3 m3]|] eqn:H3; [|done].
  rewrite bind_Ok.
  destruct (_mask_gaps (class_ self) d3 m3) as [[d4 m4]|] eqn:H4; [|done].
  rewrite bind_Ok. intros H5.
  split; [destruct (decide (ndim data = 2%nat)); [done|]; exfalso; apply Hnd; by left|].
  split; [destruct (decide (shape data = shape mask)); done|].
  by exists d1, d2, d3, m3, d4, m4.
Qed.

(** X13. When [mask_detector] returns, the frame that went in was 2D and
    of the mask's shape, the mask that comes out has that shape, and the
    data that comes out has the shape of what the linearity function
    returned (the frame's own shape when none is configured). *)
Theorem X13_mask_detector_shapes self data mask nb_frames flatfield background
    hotpixels d m :
  mask_detector self data mask nb_frames flatfield background hotpixels = Ok (d, m) ->
  ndim data = 2%nat /\ shape data = shape mask
  /\ shape m = shape mask
  /\ shape d = shape (linearity_step self data)
  /\ (_linearity_func self = None -> shape d = shape mask).
Proof.
  intros (Hnd & Hs & d1 & d2 & d3 & m3 & d4 & m4 & H1 & H2 & H3 & H4 & H5)%mask_detector_inv.
  apply flatfield_shape in H1 as [Hs1 _]. apply background_shape in H2 as Hs2.
  apply hotpixels_paired in H3 as (Hd3 & Hm3 & _).
  apply saturation_paired in H5 as (Hd5 & Hm5 & _).
  assert (Hd4 : shape d4 = shape d3 /\ shape m4 = shape m3).
  { destruct (check_data_mask d3 m3) as [[]|e] eqn:Hck.
    - apply check_data_mask_Ok in Hck as (nby & nbx & my & mx & Hsd & Hsm).
      rewrite (mask_gaps_2d _ d3 m3 nby nbx my mx Hsd Hsm) in H4.
      destruct (_ && _); [|done]. by injection H4 as <- <-.
    - rewrite mask_gaps_table, Hck in H4. done. }
  destruct Hd4 as [Hd4 Hm4].
  split; [done|]. split; [done|]. split; [congruence|]. split; [congruence|].
  intros Hf. rewrite (linearity_step_None self data Hf) in *. congruence.
Qed.

(** X14. For every class but Eiger2M, [mask_detector] treats data and mask
    alike once the linearity, flatfield and background corrections are
    done: if the linearity function keeps the frame's shape, each pixel of
    the result is either the corrected data with the input mask, or 0 in
    data and 1 in mask. *)
Theorem X14_mask_detector_paired self data mask nb_frames flatfield background
    hotpixels d m :
  class_ self <> Eiger2M ->
  shape (linearity_step self data) = shape data ->
  mask_detector self data mask nb_frames flatfield background hotpixels = Ok (d, m) ->
  exists d2,
    (d1 ← _flatfield_correction (linearity_step self data) flatfield;
     _background_subtraction d1 background) = Ok d2
    /\ forall y x v w,
         get2 d2 y x = Some v -> get2 mask y x = Some w ->
         (get2 d y x = Some v /\ get2 m y x = Some w)
         \/ (get2 d y x = Some zero /\ get2 m y x = Some one).
Proof.
  intros Hc Hlin
    (Hnd & Hs & d1 & d2 & d3 & m3 & d4 & m4 & H1 & H2 & H3 & H4 & H5)%mask_detector_inv.
  exists d2. split; [by rewrite H1|].
  apply flatfield_shape in H1 as [Hs1 _]. apply background_shape in H2 as Hs2.
  assert (Hsm : shape mask = shape d2) by congruence.
  apply hotpixels_paired in H3 as P3.
  assert (Hs3 : shape m3 = shape d3).
  { destruct P3 as (? & ? & _). congruence. }
  apply (gaps_paired _ _ _ _ _ Hc Hs3) in H4 as P4.
  apply saturation_paired in H5 as P5.
  intros y x v w Hv Hw.
  apply (paired_update_get2 d2 mask d m y x v w); [|done..].
  eapply paired_update_trans; [exact P3|].
  eapply paired_update_trans; [exact P4|exact P5].
Qed.

End PairedUpdates.

(** ** Saturation *)

Section SaturationMore.
Context {V : Type} `{Scalar V}.
Implicit Types self : Detector V.
Implicit Types a data mask d m : ndarray V.

(** After the saturation step no pixel is above the bound, 0 not being
    above it. *)
Lemma gt_scalar_after data (bound : V) i :
  s_gtb zero bound = false ->
  default false
    (gt_scalar
       (with_buf data
          (imap (fun i v => if default false (gt_scalar data bound !! i) then zero else v)
                (buf data))) bound !! i) = false.
Proof.
  intros Hz. unfold gt_scalar. simpl.
  rewrite list_lookup_fmap, list_lookup_imap, list_lookup_fmap.
  destruct (buf data !! i) as [v|]; [|done]. simpl.
  destruct (s_gtb v bound) eqn:Hv; [exact Hz | exact Hv].
Qed.

(** X15. The saturation step is idempotent when 0 is not above the bound
    (a positive threshold): run on its own output it changes nothing, and a
    run that raises raises again in the same way. *)
Theorem X15_saturation_idempotent self data mask nb_frames :
  zero_below self nb_frames ->
  (_saturation_correction self data mask nb_frames
   ≫= fun '(d, m) => _saturation_correction self d m nb_frames)
  = _saturation_correction self data mask nb_frames.
Proof.
  intros Hz. unfold _saturation_correction.
  destruct (saturation_threshold self) as [thr|] eqn:Hthr; [|reflexivity].
  destruct (check_data_mask data mask) as [[]|e] eqn:Hck; [|reflexivity].
  rewrite !bind_Ok.
  destruct (valid_item_int nb_frames 0 "nb_frames") as [n|e] eqn:Hn; [|reflexivity].
  rewrite !bind_Ok.
  assert (Hnb : nb_frames = PyInt n).
  { unfold valid_item_int in Hn. destruct nb_frames as [k|]; [|done].
    destruct (0 <? k); [|done]. by injection Hn as <-. }
  specialize (Hz thr n Hthr Hnb).
  destruct (decide (shape data = shape mask)) as [Hs|Hs].
  2:{ unfold setitem_bool. by rewrite (decide_False (P := shape data = shape mask)). }
  rewrite (setitem_bool_Ok mask) by done. rewrite bind_Ok.
  rewrite (setitem_bool_Ok data) by done. rewrite !bind_Ok.
  apply check_data_mask_Ok in Hck as Hsh.
  destruct Hsh as (nby & nbx & my & mx & Hd & Hm).
  rewrite (check_data_mask_2d _ _ nby nbx my mx) by done. rewrite !bind_Ok.
  rewrite (setitem_bool_Ok (with_buf mask _)) by done. rewrite bind_Ok.
  rewrite (setitem_bool_Ok (with_buf data _)) by done. rewrite bind_Ok.
  rewrite !with_buf_with_buf. do 2 f_equal; f_equal.
  - apply imap_unchanged. intros i v _. by rewrite gt_scalar_after.
  - apply imap_unchanged. intros i v _. by rewrite gt_scalar_after.
Qed.

End SaturationMore.

(** ** The pipeline on Maxipix and Merlin frames *)

Section CrossBandPipeline.
Context {V : Type} `{Scalar V}.
Implicit Types self : Detector V.
Implicit Types a data mask d m : ndarray V.

Lemma saturation_pixels self data mask threshold n nby nbx :
  saturation_threshold self = Some threshold -> 0 < n ->
  shape data = [nby; nbx] -> shape mask = [nby; nbx] ->
  exists d m,
    _saturation_correction self data mask (PyInt n) = Ok (d, m)
    /\ forall y x v w,
         get2 data y x = Some v -> get2 mask y x = Some w ->
         get2 d y x = Some (if s_gtb v (s_mul threshold (of_Z n)) then zero else v)
         /\ get2 m y x = Some (if s_gtb v (s_mul threshold (of_Z n)) then one else w).
Proof.
  intros Hthr Hn Hd Hm. unfold _saturation_correction. rewrite Hthr.
  rewrite (check_data_mask_2d _ _ _ _ _ _ Hd Hm), bind_Ok.
  unfold valid_item_int. replace (0 <? n) with true by lia. rewrite bind_Ok.
  rewrite (setitem_bool_Ok mask) by congruence. rewrite bind_Ok.
  rewrite (setitem_bool_Ok data) by done. rewrite bind_Ok.
  do 2 eexists. split; [reflexivity|].
  intros y x v w Hv Hw. unfold gt_scalar. split.
  - by apply (get2_setitem_bool data data
                (fun v => s_gtb v (s_mul threshold (of_Z n)))).
  - apply (get2_setitem_bool mask data
             (fun v => s_gtb v (s_mul threshold (of_Z n)))); [congruence | done..].
Qed.

(** X16. A Maxipix (Merlin) detector made by the factory without a
    linearity function, run with no flatfield, background or hot pixels on a
    2D data/mask pair of one shape and a positive integer [nb_frames]:
    [mask_detector] returns; a pixel of rows or columns 255 to 260 (259)
    ends 0 in data and 1 in mask; any other pixel ends 0 and 1 when its
    data is above [1e6 * nb_frames], and keeps its data and mask
    otherwise. *)
Theorem X16_cross_band_pipeline name kw self (hi : nat) data mask n nby nbx :
  (name = "Maxipix" /\ hi = 261%nat) \/ (name = "Merlin" /\ hi = 260%nat) ->
  create_detector name kw = Ok self ->
  kw_linearity_func kw = None ->
  shape data = [nby; nbx] -> shape mask = [nby; nbx] ->
  0 < n ->
  exists d m,
    mask_detector self data mask (PyInt n) None None None = Ok (d, m)
    /\ forall y x v w,
         get2 data y x = Some v -> get2 mask y x = Some w ->
         let band := bool_decide ((255 <= y < hi)%nat \/ (255 <= x < hi)%nat) in
         let v' := if band then zero else v in
         let saturated := s_gtb v' (s_mul (of_Z 1000000) (of_Z n)) in
         get2 d y x = Some (if saturated then zero else v')
         /\ get2 m y x = Some (if saturated then one else if band then one else w).
Proof.
  intros Hname Hmk Hlin Hd Hm Hn.
  apply create_detector_inv in Hmk as (Hcases & Hf & _).
  rewrite Hlin in Hf.
  assert (Hc : (class_ self = Maxipix /\ hi = 261%nat)
               \/ (class_ self = Merlin /\ hi = 260%nat)).
  { destruct Hname as [[-> ->] | [-> ->]]; intuition (try done). }
  assert (Hthr : saturation_threshold self = Some (of_Z 1000000)).
  { destruct Hname as [[-> ->] | [-> ->]]; intuition (try done). }
  assert (Hl : linearity_step self data = data) by (by apply linearity_step_None).
  rewrite (mask_detector_no_corrections self data mask _ nby nbx Hd Hm)
    by (by rewrite Hl).
  rewrite Hl.
  destruct (mask_gaps_returns (class_ self) data mask nby nbx Hd Hm)
    as (d1 & m1 & Hrun).
  { left. destruct Hc as [[-> _] | [-> _]]; done. }
  rewrite Hrun, bind_Ok.
  destruct (mask_gaps_Ok_inv _ _ _ _ _ _ _ Hd Hm Hrun) as [Hd1 Hm1].
  assert (Hsd1 : shape d1 = [nby; nbx]) by (by rewrite Hd1).
  assert (Hsm1 : shape m1 = [nby; nbx]) by (by rewrite Hm1).
  destruct (saturation_pixels self d1 m1 _ n nby nbx Hthr Hn Hsd1 Hsm1)
    as (d & m & Hsat & Hpix).
  exists d, m. split; [exact Hsat|].
  intros y x v w Hv Hw.
  destruct (mask_gaps_get2 _ data mask nby nbx d1 m1 y x Hd Hm Hrun) as [Hgd Hgm].
  assert (Hmg : mask_gaps (class_ self) = data_gaps (class_ self))
    by (destruct Hc as [[-> _] | [-> _]]; done).
  rewrite Hv in Hgd. rewrite Hw, Hmg in Hgm. simpl in Hgd, Hgm.
  apply get2_lt in Hv as (? & ? & Hd' & Hy & Hx & _).
  rewrite Hd in Hd'. injection Hd' as <- <-.
  rewrite (cross_band_covers (class_ self) hi) in Hgd, Hgm by done.
  destruct (Hpix y x _ _ Hgd Hgm) as [Hdd Hmm].
  cbv zeta. rewrite Hdd, Hmm. split; [done|].
  by destruct (bool_decide _), (s_gtb _ _).
Qed.

End CrossBandPipeline.

(** ** Dummy, Timepix and Eiger2M *)

Section OtherClasses.
Context {V : Type} `{Scalar V}.
Implicit Types self s : Detector V.
Implicit Types a data mask d m : ndarray V.

(** X17. A Dummy detector made by the factory has the pixel numbers given as
    [custom_pixelnumber], which are two positive integers, and 516 by 516
    when none is given. *)
Theorem X17_Dummy_pixel_number kw s :
  create_detector "Dummy" kw = Ok s ->
  class_ s = Dummy
  /\ match kw_custom_pixelnumber kw with
     | Some l =>
         unbinned_pixel_number s = l
         /\ exists n0 n1, l = [n0; n1] /\ 0 < n0 /\ 0 < n1
     | None => unbinned_pixel_number s = [516; 516]
     end.
Proof.
  unfold create_detector. repeat (case_decide; [done|]). rewrite decide_True by done.
  unfold Dummy_init. cbv zeta.
  intros ([] & _ & ([] & Hcp & Hi)%bind_Ok_inv)%bind_Ok_inv. simpl in Hcp.
  apply Detector_init_inv in Hi as (Hc & Hn & _). simpl in Hc, Hn.
  split; [done|]. unfold unbinned_pixel_number. rewrite Hc, Hn.
  destruct (kw_custom_pixelnumber kw) as [l|] eqn:Hl; [|done].
  split; [done|].
  destruct (valid_container_int_allow_none _ _ _ _ Hcp l eq_refl) as [Hlen Hpos].
  destruct l as [|n0 [|n1 [|? ?]]]; try done.
  exists n0, n1. split; [done|]. split; apply Hpos.
  - apply list_elem_of_here.
  - apply list_elem_of_further, list_elem_of_here.
Qed.

(** X18. A Timepix or Dummy detector made by the factory without a
    linearity function, run with no flatfield, background or hot pixels on
    a 2D data/mask pair of one shape: [mask_detector] returns both arrays
    unchanged, whatever [nb_frames] is. *)
Theorem X18_no_gaps_no_threshold name kw self data mask nb_frames nby nbx :
  name = "Timepix" \/ name = "Dummy" ->
  create_detector name kw = Ok self ->
  kw_linearity_func kw = None ->
  shape data = [nby; nbx] -> shape mask = [nby; nbx] ->
  mask_detector self data mask nb_frames None None None = Ok (data, mask).
Proof.
  intros Hname Hmk Hlin Hd Hm.
  apply create_detector_inv in Hmk as (Hcases & Hf & _). rewrite Hlin in Hf.
  assert (Hl : linearity_step self data = data) by (by apply linearity_step_None).
  rewrite (mask_detector_no_corrections self data mask _ nby nbx Hd Hm)
    by (by rewrite Hl).
  rewrite Hl.
  assert (Hc : (class_ self = Timepix \/ class_ self = Dummy)
               /\ saturation_threshold self = None).
  { destruct Hname as [-> | ->]; intuition (try done). }
  destruct Hc as [Hc Hthr].
  assert (Hg : _mask_gaps (class_ self) data mask = Ok (data, mask)).
  { destruct Hc as [-> | ->]; simpl; unfold Detector_mask_gaps;
      by rewrite (check_data_mask_2d _ _ _ _ _ _ Hd Hm). }
  rewrite Hg, bind_Ok. by apply saturation_no_threshold.
Qed.




End OtherClasses.

(** ** Hot pixels through the pipeline *)

Section HotPixelsPipeline.
Context {V : Type} `{Scalar V}.
Implicit Types self : Detector V.
Implicit Types a data mask d m : ndarray V.

Lemma overwrites_refl (c : V) a : overwrites c a a.
Proof. split; [done|]. exists (fun _ => false). by rewrite imap_id. Qed.

Lemma overwrites_trans (c : V) a1 a2 a3 :
  overwrites c a1 a2 -> overwrites c a2 a3 -> overwrites c a1 a3.
Proof.
  intros (Hs1 & sel1 & Hb1) (Hs2 & sel2 & Hb2). split; [congruence|].
  exists (fun i => sel1 i || sel2 i). rewrite Hb2, Hb1, imap_imap.
  apply imap_ext. intros i v _. simpl. by destruct (sel1 i), (sel2 i).
Qed.

Lemma overwrites_with_buf (c : V) a (sel : nat -> bool) :
  overwrites c a (with_buf a (imap (fun i v => if sel i then c else v) (buf a))).
Proof. split; [done|]. by exists sel. Qed.

(** An element already equal to [c] stays so, and no element appears. *)
Lemma overwrites_lookup (c : V) a a' i v :
  overwrites c a a' -> buf a' !! i = Some v ->
  exists u, buf a !! i = Some u /\ (v = u \/ v = c).
Proof.
  intros (_ & sel & Hb). rewrite Hb, list_lookup_imap.
  destruct (buf a !! i) as [u|]; [|done]. simpl. intros [= <-].
  exists u. split; [done|]. destruct (sel i); eauto.
Qed.

Lemma paired_update_overwrites d m d' m' :
  paired_update d m d' m' -> overwrites zero d d' /\ overwrites one m m'.
Proof.
  intros (Hd & Hm & sel & Hbd & Hbm). split; (split; [done|]); by exists sel.
Qed.

Lemma gaps_overwrites c data mask d m :
  _mask_gaps c data mask = Ok (d, m) ->
  overwrites zero data d /\ overwrites one mask m.
Proof.
  intros Hrun.
  destruct (check_data_mask data mask) as [[]|e] eqn:Hck.
  - apply check_data_mask_Ok in Hck as (nby & nbx & my & mx & Hd & Hm).
    rewrite (mask_gaps_2d c data mask nby nbx my mx Hd Hm) in Hrun.
    destruct (_ && _); [|done]. injection Hrun as <- <-. split.
    + apply (overwrites_with_buf zero data (covers (data_gaps c) nby nbx)).
    + apply (overwrites_with_buf one mask (covers (mask_gaps c) my mx)).
  - rewrite mask_gaps_table, Hck in Hrun. done.
Qed.

(** Where a valid hot-pixel map holds 1, the hot-pixel step leaves 0 in
    data and 1 in mask. *)
Lemma hotpixels_marks data mask hp d m y x h :
  _hotpixels_correction data mask (Some hp) = Ok (d, m) ->
  get2 hp y x = Some h -> s_eqb h one = true ->
  exists nby nbx,
    shape d = [nby; nbx] /\ shape m = [nby; nbx] /\ (y < nby)%nat /\ (x < nbx)%nat
    /\ (forall v, buf d !! (y * nbx + x)%nat = Some v -> v = zero)
    /\ (forall w, buf m !! (y * nbx + x)%nat = Some w -> w = one).
Proof.
  unfold _hotpixels_correction.
  destruct (check_data_mask data mask) as [[]|]; [|done]. rewrite bind_Ok.
  case_decide as Hs; [done|]. case_decide; [done|].
  assert (Hs' : shape hp = shape data) by (destruct (decide (shape hp = shape data)); done).
  destruct (setitem_bool data _ _ _) as [d'|] eqn:Hd; [|done]. rewrite bind_Ok.
  destruct (setitem_bool mask _ _ _) as [m'|] eqn:Hm; [|done]. rewrite bind_Ok.
  intros [= <- <-] Hh Hone.
  assert (Hsm : shape hp = shape mask).
  { unfold setitem_bool in Hm. by case_decide. }
  apply setitem_bool_inv in Hd as ->. apply setitem_bool_inv in Hm as ->.
  apply get2_lt in Hh as (nby & nbx & Hhp & Hy & Hx & Hh).
  exists nby, nbx. simpl.
  assert (Hsel : default false (eq_scalar hp 1 !! (y * nbx + x)%nat) = true).
  { unfold eq_scalar. by rewrite list_lookup_fmap, Hh. }
  split; [congruence|]. split; [congruence|]. split; [done|]. split; [done|].
  split.
  - intros v. rewrite list_lookup_imap, Hsel.
    destruct (buf data !! _); [|done]. simpl. by intros [= <-].
  - intros w. rewrite list_lookup_imap, Hsel.
    destruct (buf mask !! _); [|done]. simpl. by intros [= <-].
Qed.

(** X20. Whenever [mask_detector] returns, for any detector class and any
    other argument, a pixel at which the hot-pixel map holds 1 is 0 in the
    returned data and 1 in the returned mask: no later step undoes it. *)
Theorem X20_hot_pixel_sticks self data mask nb_frames flatfield background hp
    d m y x h :
  mask_detector self data mask nb_frames flatfield background (Some hp) = Ok (d, m) ->
  get2 hp y x = Some h -> s_eqb h one = true ->
  (forall v, get2 d y x = Some v -> v = zero)
  /\ (forall w, get2 m y x = Some w -> w = one).
Proof.
  intros (Hnd & Hs & d1 & d2 & d3 & m3 & d4 & m4 & H1 & H2 & H3 & H4 & H5)%mask_detector_inv
    Hh Hone.
  destruct (hotpixels_marks _ _ _ _ _ _ _ _ H3 Hh Hone)
    as (nby & nbx & Hsd3 & Hsm3 & Hy & Hx & Hd3 & Hm3).
  apply gaps_overwrites in H4 as [Od4 Om4].
  apply saturation_paired, paired_update_overwrites in H5 as [Od5 Om5].
  pose proof (overwrites_trans _ _ _ _ Od4 Od5) as [Hsd Od].
  pose proof (overwrites_trans _ _ _ _ Om4 Om5) as [Hsm Om].
  split.
  - intros v. unfold get2. rewrite Hsd, Hsd3, decide_True by done. intros Hv.
    destruct (overwrites_lookup zero d3 d _ v (conj Hsd Od) Hv) as (u & Hu & [-> | ->]);
      [by apply Hd3 | done].
  - intros w. unfold get2. rewrite Hsm, Hsm3, decide_True by done. intros Hw.
    destruct (overwrites_lookup one m3 m _ w (conj Hsm Om) Hw) as (u & Hu & [-> | ->]);
      [by apply Hm3 | done].
Qed.

End HotPixelsPipeline.

(** ** The further properties at concrete inputs *)

Lemma X1_witness :
  "Eiger4M" = class_name (class_ (default_detector "Eiger4M"))
  /\ _name (default_detector "Eiger4M") = "Eiger4M"
  /\ saturation_threshold (default_detector "Eiger4M")
     = class_threshold (class_ (default_detector "Eiger4M"))
  /\ _binning (default_detector "Eiger4M") = [1; 1; 1]
  /\ _linearity_func (default_detector "Eiger4M") = None.
Proof.
  apply (X1_create_detector_class "Eiger4M" default_kwargs (default_detector "Eiger4M")).
  vm_compute. reflexivity.
Defined.

Lemma X2_witness :
  counter (default_detector "Maxipix") "ID01" = Some "mpx4inr"
  /\ counter (default_detector "Maxipix") "P10" = None.
Proof.
  split.
  - rewrite (X2_counter "Maxipix" default_kwargs (default_detector "Maxipix") "ID01").
    + vm_compute. reflexivity.
    + vm_compute. reflexivity.
  - rewrite (X2_counter "Maxipix" default_kwargs (default_detector "Maxipix") "P10").
    + vm_compute. reflexivity.
    + vm_compute. reflexivity.
Defined.

Lemma X3_witness :
  exists s, create_detector "Maxipix" kwargs_binned = Ok s
            /\ nb_pixel_y s = Ok 258 /\ nb_pixel_x s = Ok 129.
Proof.
  eexists. split; [vm_compute; reflexivity|].
  match goal with |- nb_pixel_y ?s = _ /\ _ =>
    destruct (X3_constructed_pixel_numbers "Maxipix" kwargs_binned s)
      as (n0 & n1 & b0 & b1 & b2 & Hu & Hb & _ & _ & Hy & Hx & _)
  end.
  - vm_compute. reflexivity.
  - vm_compute in Hu. vm_compute in Hb.
    injection Hu as <- <-. injection Hb as <- <- <-.
    split; [exact Hy | exact Hx].
Defined.

Lemma X4_witness :
  exists s, create_detector "Maxipix" kwargs_binned = Ok s
            /\ roi s = [0; 258; 0; 129] /\ sum_roi s = roi s.
Proof.
  eexists. split; [vm_compute; reflexivity|].
  match goal with |- roi ?s = _ /\ _ =>
    destruct (X4_constructed_default_roi "Maxipix" kwargs_binned s)
      as (ny & nx & Hy & Hx & Hr & Hs)
  end.
  - vm_compute. reflexivity.
  - by left.
  - vm_compute in Hy. vm_compute in Hx. injection Hy as <-. injection Hx as <-.
    split; [exact Hr | apply Hs; by left].
Defined.

Lemma X5_witness :
  exists d, _flatfield_correction frame_2x2 (Some flatfield_2x2) = Ok d
            /\ get2 d 0 1 = Some 4.
Proof.
  destruct (X5_flatfield_correction frame_2x2) as [_ Hok].
  destruct (Hok eq_refl) as [_ Hff].
  destruct (Hff flatfield_2x2) as [_ Hsame].
  destruct (Hsame eq_refl) as (d & Hrun & _ & _ & Hpix).
  exists d. split; [exact Hrun|].
  exact (Hpix 0%nat 1%nat 2 2 eq_refl eq_refl).
Defined.

Lemma X6_witness :
  exists d, _background_subtraction frame_2x2 (Some background_2x2) = Ok d
            /\ get2 d 1 1 = Some 3.
Proof.
  destruct (X6_background_subtraction frame_2x2) as [_ Hok].
  destruct (Hok eq_refl) as [_ Hbg].
  destruct (Hbg background_2x2) as [_ Hsame].
  destruct (Hsame eq_refl) as (d & Hrun & _ & _ & Hpix).
  exists d. split; [exact Hrun|].
  exact (Hpix 1%nat 1%nat 4 1 eq_refl eq_refl).
Defined.

Lemma X7_witness :
  _hotpixels_correction frame_2x2 mask_3x3 (Some hotpixels_2x2)
  = Raise (IndexError "boolean index did not match indexed array").
Proof.
  destruct (X7_hotpixels_mask_of_other_shape frame_2x2 mask_3x3 2 2 3 3)
    as [_ Hhp].
  - reflexivity.
  - reflexivity.
  - discriminate.
  - apply (Hhp hotpixels_2x2 Z_zero_one_apart eq_refl).
    intros v Hv.
    repeat (apply elem_of_cons in Hv as [-> | Hv]; [reflexivity|]).
    by apply elem_of_nil in Hv.
Defined.

Lemma X8_witness :
  exists self r,
    create_detector "Maxipix" kwargs_probe = Ok self
    /\ _linearity_correction self frame_2x2 = Ok r
    /\ shape r = [2%nat; 2%nat].
Proof.
  eexists. 
  match goal with |- exists r, create_detector _ _ = Ok ?s /\ _ =>
    assert (Hmk : create_detector "Maxipix" kwargs_probe = Ok s)
      by (vm_compute; reflexivity);
    destruct (X8_linearity_correction s frame_2x2) as [_ Hok]
  end.
  destruct (Hok 2%nat 2%nat eq_refl) as [_ Hf].
  destruct (Hf ndim_probe) as [Hfit _]; [vm_compute; reflexivity|].
  destruct Hfit as (r & Hrun & Hs & _); [reflexivity|].
  exists r. split; [exact Hmk|]. split; [exact Hrun | exact Hs].
Defined.

Lemma X9_witness :
  exists d m,
    _mask_gaps Maxipix (full int64 300 300 7) (full int64 300 300 0) = Ok (d, m)
    /\ get2 d 255 10 = Some 0 /\ get2 m 255 10 = Some 1
    /\ get2 d 254 10 = Some 7 /\ get2 m 254 10 = Some 0.
Proof.
  destruct (X9_cross_band Maxipix 261 (full int64 300 300 7) (full int64 300 300 0)
              300 300) as (d & m & Hrun & Hpix).
  - left. by split.
  - apply shape_full.
  - apply shape_full.
  - exists d, m. split; [exact Hrun|].
    destruct (Hpix 255%nat 10%nat 7 0) as [H1 H2];
      [apply get2_full; lia | apply get2_full; lia |].
    destruct (Hpix 254%nat 10%nat 7 0) as [H3 H4];
      [apply get2_full; lia | apply get2_full; lia |].
    cbv zeta in H1, H2, H3, H4.
    rewrite bool_decide_eq_true_2 in H1, H2 by lia.
    rewrite bool_decide_eq_false_2 in H3, H4 by lia.
    repeat split; assumption.
Defined.

Lemma X10_witness :
  exists d m,
    Eiger4M_mask_gaps frame_3x3 mask_3x3 = Ok (d, m)
    /\ get2 d 2 1 = Some 0 /\ get2 m 2 1 = Some 1.
Proof.
  destruct (X10_Eiger4M_border frame_3x3 mask_3x3 3 3 eq_refl eq_refl)
    as (d & m & Hrun & Hpix).
  exists d, m. split; [exact Hrun|].
  apply (Hpix 2%nat 1%nat 8 0 eq_refl eq_refl). right. left. reflexivity.
Defined.

Lemma X11_witness :
  exists d m,
    _mask_gaps Merlin frame_2x2 mask_2x2 = Ok (d, m)
    /\ ((get2 d 1 0 = Some 3 /\ get2 m 1 0 = Some 1)
        \/ (get2 d 1 0 = Some 0 /\ get2 m 1 0 = Some 1)).
Proof.
  assert (Hrun : _mask_gaps Merlin frame_2x2 mask_2x2 = Ok (frame_2x2, mask_2x2))
    by (vm_compute; reflexivity).
  assert (Hc : Merlin <> Eiger2M) by discriminate.
  exists frame_2x2, mask_2x2. split; [exact Hrun|].
  exact (X11_gaps_paired Merlin frame_2x2 mask_2x2 2 2 frame_2x2 mask_2x2 Hc
           eq_refl eq_refl Hrun 1%nat 0%nat 3 1 eq_refl eq_refl).
Defined.

Lemma X12_witness :
  is_ValueError (_mask_gaps Eiger2M (flatten frame_2x2) mask_2x2) = true.
Proof.
  apply (X12_gaps_ValueError Eiger2M (flatten frame_2x2) mask_2x2).
  intros [Hnd _]. discriminate Hnd.
Defined.

Lemma X13_witness :
  exists d m,
    mask_detector (default_detector "Maxipix") frame_saturated mask_2x2 (PyInt 1)
      None None (Some hotpixels_2x2) = Ok (d, m)
    /\ shape m = [2%nat; 2%nat] /\ shape d = [2%nat; 2%nat].
Proof.
  assert (Hrun : exists d m,
    mask_detector (default_detector "Maxipix") frame_saturated mask_2x2 (PyInt 1)
      None None (Some hotpixels_2x2) = Ok (d, m))
    by (do 2 eexists; vm_compute; reflexivity).
  destruct Hrun as (d & m & Hrun). exists d, m. split; [exact Hrun|].
  destruct (X13_mask_detector_shapes _ _ _ _ _ _ _ _ _ Hrun) as (_ & _ & Hm & Hd & _).
  vm_compute in Hd. split; [exact Hm | exact Hd].
Defined.

Lemma X14_witness :
  exists d m,
    mask_detector (default_detector "Maxipix") frame_saturated mask_2x2 (PyInt 1)
      None None (Some hotpixels_2x2) = Ok (d, m)
    /\ ((get2 d 0 0 = Some 1 /\ get2 m 0 0 = Some 0)
        \/ (get2 d 0 0 = Some 0 /\ get2 m 0 0 = Some 1)).
Proof.
  assert (Hrun : exists d m,
    mask_detector (default_detector "Maxipix") frame_saturated mask_2x2 (PyInt 1)
      None None (Some hotpixels_2x2) = Ok (d, m))
    by (do 2 eexists; vm_compute; reflexivity).
  destruct Hrun as (d & m & Hrun). exists d, m. split; [exact Hrun|].
  assert (Hc : class_ (default_detector "Maxipix") <> Eiger2M)
    by (vm_compute; discriminate).
  assert (Hlin : shape (linearity_step (default_detector "Maxipix") frame_saturated)
                 = shape frame_saturated) by (vm_compute; reflexivity).
  destruct (X14_mask_detector_paired _ _ _ _ _ _ _ _ _ Hc Hlin Hrun)
    as (d2 & H2 & Hpix).
  vm_compute in H2. injection H2 as <-.
  exact (Hpix 0%nat 0%nat 1 0 eq_refl eq_refl).
Defined.

Lemma X15_witness :
  (_saturation_correction (default_detector "Maxipix") frame_saturated mask_2x2 (PyInt 1)
   ≫= fun '(d, m) => _saturation_correction (default_detector "Maxipix") d m (PyInt 1))
  = _saturation_correction (default_detector "Maxipix") frame_saturated mask_2x2 (PyInt 1).
Proof.
  apply (X15_saturation_idempotent (default_detector "Maxipix")).
  intros thr n Ht Hn. vm_compute in Ht. injection Ht as <-. injection Hn as <-.
  reflexivity.
Defined.

Lemma X16_witness :
  exists d m,
    mask_detector (default_detector "Maxipix") (full int64 300 300 7)
      (full int64 300 300 0) (PyInt 1) None None None = Ok (d, m)
    /\ get2 d 255 10 = Some 0 /\ get2 m 255 10 = Some 1
    /\ get2 d 254 10 = Some 7 /\ get2 m 254 10 = Some 0.
Proof.
  destruct (X16_cross_band_pipeline "Maxipix" default_kwargs
              (default_detector "Maxipix") 261 (full int64 300 300 7)
              (full int64 300 300 0) 1 300 300)
    as (d & m & Hrun & Hpix).
  - left. by split.
  - vm_compute. reflexivity.
  - reflexivity.
  - apply shape_full.
  - apply shape_full.
  - lia.
  - exists d, m. split; [exact Hrun|].
    destruct (Hpix 255%nat 10%nat 7 0) as [H1 H2];
      [apply get2_full; lia | apply get2_full; lia |].
    destruct (Hpix 254%nat 10%nat 7 0) as [H3 H4];
      [apply get2_full; lia | apply get2_full; lia |].
    cbv zeta in H1, H2, H3, H4.
    rewrite bool_decide_eq_true_2 in H1, H2 by lia.
    rewrite bool_decide_eq_false_2 in H3, H4 by lia.
    repeat split; assumption.
Defined.

Lemma X17_witness :
  class_ (default_detector "Dummy") = Dummy
  /\ unbinned_pixel_number (default_detector "Dummy") = [516; 516].
Proof.
  apply (X17_Dummy_pixel_number default_kwargs (default_detector "Dummy")).
  vm_compute. reflexivity.
Defined.

Lemma X18_witness :
  mask_detector (default_detector "Timepix") frame_2x2 mask_2x2 PyNotInt None None None
  = Ok (frame_2x2, mask_2x2).
Proof.
  apply (X18_no_gaps_no_threshold "Timepix" default_kwargs (default_detector "Timepix")
           frame_2x2 mask_2x2 PyNotInt 2 2).
  - by left.
  - vm_compute. reflexivity.
  - reflexivity.
  - reflexivity.
  - reflexivity.
Defined.


Lemma X20_witness :
  exists d m,
    mask_detector (default_detector "Eiger4M") frame_3x3 mask_3x3 (PyInt 1)
      None None (Some (full int64 3 3 1)) = Ok (d, m)
    /\ (forall v, get2 d 1 1 = Some v -> v = 0)
    /\ (forall w, get2 m 1 1 = Some w -> w = 1).
Proof.
  assert (Hrun : exists d m,
    mask_detector (default_detector "Eiger4M") frame_3x3 mask_3x3 (PyInt 1)
      None None (Some (full int64 3 3 1)) = Ok (d, m))
    by (do 2 eexists; vm_compute; reflexivity).
  destruct Hrun as (d & m & Hrun). exists d, m. split; [exact Hrun|].
  exact (X20_hot_pixel_sticks _ _ _ _ _ _ _ _ _ 1%nat 1%nat 1 Hrun eq_refl eq_refl).
Defined.
